(** * packj: the risk-assessment pipeline of [main.py]

    A shallow embedding of [main.py]: the alert registry ([alert_user]), the
    nine stage functions ([analyze_version] ... [analyze_apis]) and the
    top-level script.  Python dictionaries are insertion-ordered association
    lists, statements run in a state-and-exception monad whose state holds the
    two dictionaries every stage mutates ([risks], [report]) and the standard
    output, and the external collaborators (registry client, static analyzer,
    network probes) are fields of a record giving the outcome of each call. *)

From Stdlib Require Import String Ascii List ZArith Lia Bool DecimalString.
Import ListNotations.
Local Open Scope string_scope.
Local Open Scope Z_scope.

(** ** Python values and dictionaries *)

(** The scalar values the script inspects dynamically. *)
Inductive pyval : Type :=
| PyNone
| PyInt (n : Z)
| PyStr (s : string).

(** Truth value of a scalar: [None], [0] and the empty string are false. *)
Definition truthy (v : pyval) : bool :=
  match v with
  | PyNone => false
  | PyInt n => negb (n =? 0)
  | PyStr s => negb (s =? "")%string
  end.

(** [str(n)] and ['%d' % n] for an integer. *)
Definition str_of_Z (n : Z) : string := NilZero.string_of_int (Z.to_int n).

(** [str(v)], as ['%s' % v] prints it. *)
Definition py_str (v : pyval) : string :=
  match v with
  | PyNone => "None"
  | PyInt n => str_of_Z n
  | PyStr s => s
  end.

Module Dict.

(** A [dict] with string keys in insertion order. *)
Definition t (V : Type) : Type := list (string * V).

Definition empty {V} : t V := [].

Fixpoint get {V} (d : t V) (k : string) : option V :=
  match d with
  | [] => None
  | (k', v) :: d' => if (k' =? k)%string then Some v else get d' k
  end.

(** [k in d] *)
Definition mem {V} (d : t V) (k : string) : bool :=
  match get d k with Some _ => true | None => false end.

(** [d[k] = v]: overwrite in place, or add the key last. *)
Fixpoint set {V} (d : t V) (k : string) (v : V) : t V :=
  match d with
  | [] => [(k, v)]
  | (k', v') :: d' =>
      if (k' =? k)%string then (k', v) :: d' else (k', v') :: set d' k v
  end.

Definition keys {V} (d : t V) : list string := map fst d.
Definition values {V} (d : t V) : list V := map snd d.
Definition len {V} (d : t V) : nat := length d.

End Dict.

(** ** The threat model and the alert registry *)

(** alert type -> risk category, as [get_threat_model] builds it. *)
Definition ThreatModel : Type := Dict.t string.

(** risk category -> messages, in the order they were appended. *)
Definition Risks : Type := Dict.t (list string).

(** ['%s: %s' % (alert_type, reason)] *)
Definition alert_message (alert_type reason : string) : string :=
  alert_type ++ ": " ++ reason.

(** [risks[risk_cat].append(msg)], after [risks[risk_cat] = []] when the
    category is new. *)
Definition append_message (risks : Risks) (risk_cat msg : string) : Risks :=
  let risks' :=
    if Dict.mem risks risk_cat then risks else Dict.set risks risk_cat [] in
  match Dict.get risks' risk_cat with
  | Some msgs => Dict.set risks' risk_cat (msgs ++ [msg])%list
  | None => risks'
  end.

Definition alert_user (alert_type : string) (threat_model : ThreatModel)
    (reason : string) (risks : Risks) : Risks :=
  match Dict.get threat_model alert_type with
  | Some risk_cat => append_message risks risk_cat (alert_message alert_type reason)
  | None => risks
  end.

(** The messages of a category, [[]] when the category is absent. *)
Definition messages (risks : Risks) (cat : string) : list string :=
  match Dict.get risks cat with
  | Some l => l
  | None => []
  end.

(** ** String operations of the Python built-ins the script uses *)

(** [sep.join(l)] *)
Fixpoint join (sep : string) (l : list string) : string :=
  match l with
  | [] => ""
  | [x] => x
  | x :: l' => x ++ sep ++ join sep l'
  end.

(** [s.startswith(p)] *)
Definition startswith (s p : string) : bool := String.prefix p s.

(** [s.startswith(tuple(ps))] *)
Definition startswith_any (s : string) (ps : list string) : bool :=
  existsb (startswith s) ps.

(** [p in s] for two strings: [p] occurs in [s] as a substring. *)
Fixpoint str_in (p s : string) : bool :=
  String.prefix p s ||
  match s with
  | EmptyString => false
  | String _ s' => str_in p s'
  end.

Fixpoint lstrip (c : ascii) (s : string) : string :=
  match s with
  | EmptyString => EmptyString
  | String a s' => if Ascii.eqb a c then lstrip c s' else s
  end.

Fixpoint rstrip (c : ascii) (s : string) : string :=
  match s with
  | EmptyString => EmptyString
  | String a s' =>
      let r := rstrip c s' in
      if (r =? "")%string && Ascii.eqb a c then EmptyString else String a r
  end.

(** [s.strip(c)] for a one-character [c]. *)
Definition strip (c : ascii) (s : string) : string := rstrip c (lstrip c s).

Definition lower_ascii (a : ascii) : ascii :=
  let n := nat_of_ascii a in
  if (Nat.leb 65 n && Nat.leb n 90)%bool then ascii_of_nat (n + 32) else a.

(** [s.lower()], on ASCII text. *)
Fixpoint lower (s : string) : string :=
  match s with
  | EmptyString => EmptyString
  | String a s' => String (lower_ascii a) (lower s')
  end.

Fixpoint split_go (sep s : string) (skip : nat) (cur : string) : list string :=
  match s with
  | EmptyString => [cur]
  | String a s' =>
      match skip with
      | S k => split_go sep s' k cur
      | O =>
          if String.prefix sep s
          then cur :: split_go sep s' (String.length sep - 1) ""
          else split_go sep s' 0 (cur ++ String a "")
      end
  end.

(** [s.split(sep)] for a non-empty separator. *)
Definition split (sep s : string) : list string := split_go sep s 0 "".

(** ** Exceptions *)

Inductive exn_class : Type :=
| AssertionError
| KeyError
| TypeError
| AttributeError
| NameError
| ValueError
| IndexError
| PlainException   (* raise Exception(...) *)
| OtherException   (* any other subclass of Exception *)
| SystemExit (code : Z)   (* exit(code) *)
| OtherBase.       (* any other BaseException outside Exception *)

(** An exception object: its class and [str(e)]. *)
Record exn : Type := mk_exn { exn_cls : exn_class; exn_msg : string }.

(** [isinstance(e, Exception)] *)
Definition is_Exception (e : exn) : bool :=
  match exn_cls e with
  | SystemExit _ | OtherBase => false
  | _ => true
  end.

Definition is_KeyError (e : exn) : bool :=
  match exn_cls e with
  | KeyError => true
  | _ => false
  end.

Definition type_name (v : pyval) : string :=
  match v with
  | PyNone => "NoneType"
  | PyInt _ => "int"
  | PyStr _ => "str"
  end.

(** [repr(v)] of a scalar (quotes inside a string are not escaped). *)
Definition py_repr (v : pyval) : string :=
  match v with
  | PyStr s => "'" ++ s ++ "'"
  | _ => py_str v
  end.

Definition key_error (k : pyval) : exn := mk_exn KeyError (py_repr k).
Definition assertion_error (msg : string) : exn := mk_exn AssertionError msg.
Definition exception (msg : string) : exn := mk_exn PlainException msg.
Definition type_error (msg : string) : exn := mk_exn TypeError msg.

(** The outcome of evaluating an expression or of an external call. *)
Inductive result (A : Type) : Type :=
| Ok (a : A)
| Raise (e : exn).
Arguments Ok {A} a.
Arguments Raise {A} e.

(** ** The report and the interpreter state *)

Definition VerInfo : Type := Dict.t pyval.
Definition History : Type := Dict.t (Dict.t pyval).
Definition PkgInfo : Type := Dict.t (Dict.t pyval).
Definition Perms : Type := Dict.t (list string).

(** What the script stores in a section of the report. *)
Inductive report_value : Type :=
| RVersion (ver_info : option VerInfo)
| RReleases (release_history : option History)
| RAuthor (author_info : option (Dict.t pyval))
| RUrl (url : pyval)
| RVulns (vuln_list : list (Dict.t pyval))
| RPermissions (report_data : Perms)
| RRisks (risks : option Risks).

Definition Report : Type := Dict.t report_value.

(** The two dictionaries a stage mutates in place, the lines printed so far
    (one entry per [print] call), the files written, and the module-level
    variable [filepath] of the script ([None] while the name is unbound). *)
Record state : Type := mk_state {
  risks : Risks;
  report : Report;
  stdout : list string;
  files : list (string * Report);
  filepath_var : option pyval
}.

Definition set_risks (r : Risks) (s : state) : state :=
  mk_state r (report s) (stdout s) (files s) (filepath_var s).

Definition set_report_dict (r : Report) (s : state) : state :=
  mk_state (risks s) r (stdout s) (files s) (filepath_var s).

Definition add_stdout (line : string) (s : state) : state :=
  mk_state (risks s) (report s) (stdout s ++ [line])%list (files s) (filepath_var s).

Definition add_file (name : string) (content : Report) (s : state) : state :=
  mk_state (risks s) (report s) (stdout s) (files s ++ [(name, content)])%list
           (filepath_var s).

Definition bind_filepath (v : pyval) (s : state) : state :=
  mk_state (risks s) (report s) (stdout s) (files s) (Some v).

(** ** Expressions and statements: state and exceptions *)

Definition M (A : Type) : Type := state -> result A * state.

Definition ret {A} (a : A) : M A := fun s => (Ok a, s).

Definition bind {A B} (m : M A) (k : A -> M B) : M B :=
  fun s =>
    match m s with
    | (Ok a, s') => k a s'
    | (Raise e, s') => (Raise e, s')
    end.

Definition raise {A} (e : exn) : M A := fun s => (Raise e, s).

(** The outcome of an external call, or of a built-in that may raise. *)
Definition lift {A} (r : result A) : M A := fun s => (r, s).

Declare Scope py_scope.
Delimit Scope py_scope with py.
Notation "x <- m ;; k" := (bind m (fun x => k))
  (at level 100, m at next level, right associativity) : py_scope.
Notation "' p <- m ;; k" := (bind m (fun p => k))
  (at level 100, p pattern, m at next level, right associativity) : py_scope.
Notation "m ;; k" := (bind m (fun _ => k))
  (at level 100, right associativity) : py_scope.
Local Open Scope py_scope.

(** [print(line)] *)
Definition print (line : string) : M unit :=
  fun s => (Ok tt, add_stdout line s).

(** [report[key] = v] *)
Definition set_report (key : string) (v : report_value) : M unit :=
  fun s => (Ok tt, set_report_dict (Dict.set (report s) key v) s).

(** [assert b, msg] *)
Definition assert (b : bool) (msg : string) : M unit :=
  if b then ret tt else raise (assertion_error msg).

(** [try: m  except <C> as e: h e], where [catches] tells the instances of [C]. *)
Definition try_except {A} (m : M A) (catches : exn -> bool) (h : exn -> M A) : M A :=
  fun s =>
    match m s with
    | (Raise e, s') => if catches e then h e s' else (Raise e, s')
    | r => r
    end.

(** [for x in l: acc = f x acc] *)
Fixpoint for_each {X B} (l : list X) (f : X -> B -> M B) (acc : B) : M B :=
  match l with
  | [] => ret acc
  | x :: l' => acc' <- f x acc ;; for_each l' f acc'
  end.

(** [[f x for x in l]] *)
Fixpoint map_m {X Y} (f : X -> M Y) (l : list X) : M (list Y) :=
  match l with
  | [] => ret []
  | x :: l' => y <- f x ;; ys <- map_m f l' ;; ret (y :: ys)
  end.

(** How a function body ends. *)
Inductive completion : Type :=
| Normal
| Returned (v : Risks * Report)
| Raised (e : exn).

Definition Stmt : Type := state -> completion * state.

Definition exec (m : M unit) : Stmt :=
  fun s =>
    match m s with
    | (Ok _, s') => (Normal, s')
    | (Raise e, s') => (Raised e, s')
    end.

(** [try: body  except Exception as e: handler e] *)
Definition try_except_Exception (body : Stmt) (handler : exn -> Stmt) : Stmt :=
  fun s =>
    match body s with
    | (Raised e, s') => if is_Exception e then handler e s' else (Raised e, s')
    | r => r
    end.

(** [try: body  finally: final]: the [finally] block always runs, and when it
    returns or raises, that replaces the completion of [body]. *)
Definition try_finally (body final : Stmt) : Stmt :=
  fun s =>
    match body s with
    | (c, s1) =>
        match final s1 with
        | (Normal, s2) => (c, s2)
        | r => r
        end
    end.

(** [return risks, report] *)
Definition return_risks_report : Stmt :=
  fun s => (Returned (risks s, report s), s).

(** The frame every stage function has:
    [try: body  except Exception as e: print("FAILED [%s]" % (str(e)))
     finally: return risks, report]. *)
Definition stage (body : M unit) : Stmt :=
  try_finally
    (try_except_Exception (exec body)
       (fun e => exec (print ("FAILED [" ++ exn_msg e ++ "]"))))
    return_risks_report.

(** ** Built-in operations on dynamically typed values *)

Definition truthy_dict {V} (d : option (Dict.t V)) : bool :=
  match d with
  | Some (_ :: _) => true
  | _ => false
  end.

Definition truthy_list {X} (l : option (list X)) : bool :=
  match l with
  | Some (_ :: _) => true
  | _ => false
  end.

(** [d[k]] *)
Definition subscript {V} (d : option (Dict.t V)) (k : pyval) : M V :=
  match d with
  | None => raise (type_error "'NoneType' object is not subscriptable")
  | Some d' =>
      match k with
      | PyStr key =>
          match Dict.get d' key with
          | Some v => ret v
          | None => raise (key_error k)
          end
      | _ => raise (key_error k)
      end
  end.

(** [v > n] *)
Definition py_gt (v : pyval) (n : Z) : M bool :=
  match v with
  | PyInt m => ret (m >? n)
  | _ => raise (type_error ("'>' not supported between instances of '" ++
                            type_name v ++ "' and 'int'"))
  end.

(** [v < n] *)
Definition py_lt (v : pyval) (n : Z) : M bool :=
  match v with
  | PyInt m => ret (m <? n)
  | _ => raise (type_error ("'<' not supported between instances of '" ++
                            type_name v ++ "' and 'int'"))
  end.

(** ['%d' % v] *)
Definition fmt_d (v : pyval) : M string :=
  match v with
  | PyInt m => ret (str_of_Z m)
  | _ => raise (type_error ("%d format: a real number is required, not " ++
                            type_name v))
  end.

(** [len(v)] *)
Definition py_len (v : pyval) : M Z :=
  match v with
  | PyStr s => ret (Z.of_nat (String.length s))
  | _ => raise (type_error ("object of type '" ++ type_name v ++ "' has no len()"))
  end.

Definition no_attribute {A} (v : pyval) (attr : string) : M A :=
  raise (mk_exn AttributeError
           ("'" ++ type_name v ++ "' object has no attribute '" ++ attr ++ "'")).

(** [v.startswith(tuple(ps))] *)
Definition py_startswith (v : pyval) (ps : list string) : M bool :=
  match v with
  | PyStr s => ret (startswith_any s ps)
  | _ => no_attribute v "startswith"
  end.

(** [v.strip('/')] *)
Definition py_strip (v : pyval) : M string :=
  match v with
  | PyStr s => ret (strip "/"%char s)
  | _ => no_attribute v "strip"
  end.

(** [v + suffix] for a string [suffix] *)
Definition py_add_str (v : pyval) (suffix : string) : M string :=
  match v with
  | PyStr s => ret (s ++ suffix)
  | _ => raise (type_error ("unsupported operand type(s) for +: '" ++
                            type_name v ++ "' and 'str'"))
  end.

(** [l[i]] on a list *)
Definition index {X} (l : list X) (i : nat) : M X :=
  match nth_error l i with
  | Some x => ret x
  | None => raise (mk_exn IndexError "list index out of range")
  end.

(** [sep.join(l)] on values: every item has to be a string. *)
Fixpoint join_values (sep : string) (i : nat) (l : list pyval) : M (list string) :=
  match l with
  | [] => ret []
  | PyStr s :: l' => r <- join_values sep (S i) l' ;; ret (s :: r)
  | v :: _ =>
      raise (type_error ("sequence item " ++ str_of_Z (Z.of_nat i) ++
                         ": expected str instance, " ++ type_name v ++ " found"))
  end.

(** ** External collaborators *)

Inductive LanguageEnum : Type := python | javascript.
Inductive PackageManagerEnum : Type := pypi | npmjs.

(** The result of [__parse_url]; only its [scheme] is read. *)
Record ParsedUrl : Type := mk_parsed { scheme : string }.

(** The methods of the registry client [pm_proxy], each giving the outcome of
    the call on its arguments. *)
Record PmProxy : Type := mk_pm_proxy {
  get_metadata : pyval -> pyval -> result (option PkgInfo);
  get_version : pyval -> pyval -> option PkgInfo -> result (option VerInfo);
  get_release_history : pyval -> option PkgInfo -> result (option History);
  get_author :
    pyval -> pyval -> option PkgInfo -> option VerInfo -> result (option (Dict.t pyval));
  get_description : pyval -> pyval -> option PkgInfo -> result pyval;
  get_homepage : pyval -> pyval -> option PkgInfo -> result pyval;
  get_repo : pyval -> pyval -> option PkgInfo -> option VerInfo -> result pyval;
  get_download_url : pyval -> pyval -> option PkgInfo -> result pyval;
  get_downloads : pyval -> result pyval
}.

(** The imported functions of [util], [osv], [parse_apis], [pm_util] and
    [static_util]; [fmt_kb size] is the text of
    ['%0.2f' % (float(size)/1024)]. *)
Record Imports : Type := mk_imports {
  read_from_csv : string -> result (list (list string));
  get_pm_proxy : PackageManagerEnum -> result (option PmProxy);
  datetime_delta : pyval -> result pyval;
  check_email_address : pyval -> result (bool * bool);
  parse_url : pyval -> result ParsedUrl;
  check_site_exist : pyval -> result (bool * string);
  check_domain_popular : pyval -> result bool;
  human_format : pyval -> result string;
  get_pkgver_vulns : string -> pyval -> pyval -> result (option (list (Dict.t pyval)));
  get_static_proxy_for_language : LanguageEnum -> result unit;
  astgen : LanguageEnum -> pyval -> string -> string -> pyval -> pyval -> result unit;
  path_exists : string -> bool;
  parse_api_usage : string -> string -> result (option Perms);
  download_file : pyval -> result (pyval * pyval);
  fmt_kb : pyval -> result string;
  write_json_to_file : string -> Report -> result unit
}.

(** [get_threat_model(filename)] *)
Definition get_threat_model (ext : Imports) (filename : string) : M ThreatModel :=
  rows <- lift (read_from_csv ext filename) ;;
  for_each rows
    (fun line threat_model =>
       typ <- index line 0 ;;
       attr <- index line 1 ;;
       ret (Dict.set threat_model (strip "010"%char attr) typ))
    Dict.empty.

(** ** The stage functions *)

Section Stages.

(** The module-level names the stage functions read. *)
Variable ext : Imports.
Variable pm_proxy : PmProxy.
Variable threat_model : ThreatModel.

(** [risks = alert_user(alert_type, threat_model, reason, risks)] *)
Definition alert (alert_type reason : string) : M unit :=
  fun s => (Ok tt, set_risks (alert_user alert_type threat_model reason (risks s)) s).

Definition analyze_release_history_body
    (pkg_name ver_str : pyval) (pkg_info : option PkgInfo) : M unit :=
  print "[+] Checking release history..." ;;
  release_history <- lift (get_release_history pm_proxy pkg_name pkg_info) ;;
  assert (truthy_dict release_history) "no data!" ;;
  let n := match release_history with Some h => Dict.len h | None => O end in
  (if (n <? 2)%nat then
     alert "few versions or releases"
           ("only " ++ str_of_Z (Z.of_nat n) ++ " versions released")
   else
     try_except
       (entry <- subscript release_history ver_str ;;
        days <- subscript (Some entry) (PyStr "days_since_last_release") ;;
        long_gap <- (if truthy days then py_gt days 180 else ret false) ;;
        if long_gap then
          text <- fmt_d days ;;
          alert "version release after a long gap"
                ("version released after " ++ text ++ " days")
        else ret tt)
       is_Exception
       (fun ee => print (exn_msg ee))) ;;
  print ("OK [" ++ str_of_Z (Z.of_nat n) ++ " versions]") ;;
  set_report "releases" (RReleases release_history).

Definition analyze_release_history
    (pkg_name ver_str : pyval) (pkg_info : option PkgInfo) : Stmt :=
  stage (analyze_release_history_body pkg_name ver_str pkg_info).

Definition analyze_version_body (ver_info : option VerInfo) : M unit :=
  print "[+] Checking version..." ;;
  assert (truthy_dict ver_info) "no data!" ;;
  '(uploaded, days) <-
    try_except
      (uploaded <- subscript ver_info (PyStr "uploaded") ;;
       days <- lift (datetime_delta ext uploaded) ;;
       ret (uploaded, days))
      is_KeyError
      (fun _ => raise (exception "parse error")) ;;
  too_old <- (if negb (truthy uploaded) then ret true else py_gt days 365) ;;
  (if too_old then
     reason <- (if negb (truthy uploaded) then ret "no release date"
                else text <- fmt_d days ;; ret (text ++ " days old")) ;;
     alert "old package" reason
   else ret tt) ;;
  text <- fmt_d days ;;
  print ("OK [" ++ text ++ " days old]") ;;
  set_report "version" (RVersion ver_info).

Definition analyze_version (ver_info : option VerInfo) : Stmt :=
  stage (analyze_version_body ver_info).

Definition analyze_cves_body (pm_name : string) (pkg_name ver_str : pyval) : M unit :=
  print "[+] Checking for CVEs..." ;;
  vuln_list <- lift (get_pkgver_vulns ext pm_name pkg_name ver_str) ;;
  vulns <-
    (if truthy_list vuln_list then
       let l := match vuln_list with Some l => l | None => [] end in
       ids <- map_m (fun vul => subscript (Some vul) (PyStr "id")) l ;;
       texts <- join_values "," 0 ids ;;
       alert "contains known vulnerablities (CVEs)" ("contains " ++ join "," texts) ;;
       ret l
     else ret []) ;;
  print ("OK [" ++ str_of_Z (Z.of_nat (length vulns)) ++ " found]") ;;
  set_report "vulnerabilities" (RVulns vulns).

Definition analyze_cves (pm_name : string) (pkg_name ver_str : pyval) : Stmt :=
  stage (analyze_cves_body pm_name pkg_name ver_str).

Definition analyze_downloads_body (pm_proxy' : PmProxy) (pkg_name : pyval) : M unit :=
  print "[+] Checking downloads..." ;;
  ret_ <- lift (get_downloads pm_proxy' pkg_name) ;;
  few <- py_lt ret_ 1000 ;;
  (if few then
     text <- fmt_d ret_ ;;
     alert "few downloads" ("only " ++ text ++ " weekly downloads")
   else ret tt) ;;
  text <- lift (human_format ext ret_) ;;
  print ("OK [" ++ text ++ " weekly]").

Definition analyze_downloads (pm_proxy' : PmProxy) (pkg_name : pyval) : Stmt :=
  stage (analyze_downloads_body pm_proxy' pkg_name).

Definition analyze_homepage_body
    (pkg_name ver_str : pyval) (pkg_info : option PkgInfo) : M unit :=
  print "[+] Checking homepage..." ;;
  url <- lift (get_homepage pm_proxy pkg_name ver_str pkg_info) ;;
  (if negb (truthy url) then alert "invalid or no homepage" "no homepage"
   else ret tt) ;;
  ret_ <- lift (parse_url ext url) ;;
  (if negb (scheme ret_ =? "https")%string
   then alert "invalid or no homepage" "insecure webpage"
   else ret tt) ;;
  '(valid_site, reason) <- lift (check_site_exist ext url) ;;
  (if negb valid_site then alert "invalid or no homepage" reason
   else
     popular <- lift (check_domain_popular ext url) ;;
     if popular then alert "invalid or no homepage" "invalid (popular) webpage"
     else ret tt) ;;
  print ("OK [" ++ py_str url ++ "]") ;;
  set_report "homepage" (RUrl url).

Definition analyze_homepage
    (pkg_name ver_str : pyval) (pkg_info : option PkgInfo) : Stmt :=
  stage (analyze_homepage_body pkg_name ver_str pkg_info).

Definition popular_hosting_services : list string :=
  ["https://github.com/"; "https://gitlab.com/"; "git+https://github.com/";
   "git://github.com/"].

(** [if not repo or not repo.startswith(...): repo = None] *)
Definition keep_if_hosted (repo : pyval) : M pyval :=
  if negb (truthy repo) then ret PyNone
  else
    hosted <- py_startswith repo popular_hosting_services ;;
    if hosted then ret repo else ret PyNone.

Definition analyze_repo_body
    (pkg_name ver_str : pyval) (pkg_info : option PkgInfo)
    (ver_info : option VerInfo) : M unit :=
  print "[+] Checking repo..." ;;
  repo <- lift (get_repo pm_proxy pkg_name ver_str pkg_info ver_info) ;;
  repo <- (if negb (truthy repo) then
             repo' <- lift (get_homepage pm_proxy pkg_name ver_str pkg_info) ;;
             keep_if_hosted repo'
           else ret repo) ;;
  repo <- (if negb (truthy repo) then
             repo' <- lift (get_download_url pm_proxy pkg_name ver_str pkg_info) ;;
             keep_if_hosted repo'
           else ret repo) ;;
  (if negb (truthy repo) then
     alert "invalid or no source repo" "no source repo found"
   else
     hosted <- py_startswith repo popular_hosting_services ;;
     if negb hosted then
       alert "invalid or no source repo" ("invalid source repo " ++ py_str repo)
     else
       stripped <- py_strip repo ;;
       if existsb (String.eqb stripped)
            ["https://github.com/pypa/sampleproject";
             "https://github.com/kubernetes/kubernetes"]
       then alert "invalid or no source repo" ("invalid source repo " ++ py_str repo)
       else ret tt) ;;
  print ("OK [" ++ py_str repo ++ "]") ;;
  set_report "repo" (RUrl repo).

Definition analyze_repo
    (pkg_name ver_str : pyval) (pkg_info : option PkgInfo)
    (ver_info : option VerInfo) : Stmt :=
  stage (analyze_repo_body pkg_name ver_str pkg_info ver_info).

Definition analyze_readme_body
    (pkg_name ver_str : pyval) (pkg_info : option PkgInfo) : M unit :=
  print "[+] Checking readme..." ;;
  descr <- lift (get_description pm_proxy pkg_name ver_str pkg_info) ;;
  lacking <- (if negb (truthy descr) then ret true
              else n <- py_len descr ;; ret (n <? 100)) ;;
  (if lacking then
     alert "no or insufficient readme"
           (if negb (truthy descr) then "no description"
            else "insufficient description")
   else ret tt) ;;
  n <- py_len descr ;;
  print ("OK [" ++ str_of_Z n ++ " bytes]").

Definition analyze_readme
    (pkg_name ver_str : pyval) (pkg_info : option PkgInfo) : Stmt :=
  stage (analyze_readme_body pkg_name ver_str pkg_info).

Definition analyze_author_body
    (pkg_name ver_str : pyval) (pkg_info : option PkgInfo)
    (ver_info : option VerInfo) : M unit :=
  print "[+] Checking author..." ;;
  author_info <- lift (get_author pm_proxy pkg_name ver_str pkg_info ver_info) ;;
  assert (truthy_dict author_info) "no data!" ;;
  email <- try_except (subscript author_info (PyStr "email"))
             is_KeyError (fun _ => ret PyNone) ;;
  '(valid, valid_with_dns) <- lift (check_email_address ext email) ;;
  (if negb valid || negb valid_with_dns then
     alert "invalid or no author email (2FA not enabled)"
           (if negb (truthy email) then "no email"
            else if negb valid then "invalid author email"
            else "expired author email domain")
   else ret tt) ;;
  print ("OK [" ++ py_str email ++ "]") ;;
  set_report "author" (RAuthor author_info).

Definition analyze_author
    (pkg_name ver_str : pyval) (pkg_info : option PkgInfo)
    (ver_info : option VerInfo) : Stmt :=
  stage (analyze_author_body pkg_name ver_str pkg_info ver_info).

(** The [if]/[elif] chain of the loop of [analyze_apis], test by test: the
    pair assigned to [(alert_type, reason)], or [None] when no branch is
    taken. *)
Definition api_alert (p : string) : option (string * string) :=
  if (p =? "SOURCE_FILE")%string then
    Some ("accesses files and dirs", "reads files and dirs")
  else if (p =? "SINK_FILE")%string then
    Some ("accesses files and dirs", "writes to files and dirs")
  else if (p =? "SINK_NETWORK")%string then
    Some ("communicates with external network", "sends data over the network %s")
  else if (p =? "SOURCE_NETWORK")%string then
    Some ("communicates with external network", "fetches data over the network")
  else if str_in p "SINK_CODE_GENERATION" then
    Some ("generates new code at runtime", "generates new code at runtime")
  else if truthy (PyStr "SINK_PROCESS_OPERATION") then
    Some ("generates new code at runtime", "spawns new processes in background")
  else if (p =? "SOURCE_OBFUSCATION")%string then
    Some ("accesses obfuscated (hidden) code", "reads hidden code")
  else if (p =? "SOURCE_SETTINGS")%string then
    Some ("accesses system/environment variables",
          "reads system settings or environment variables")
  else if (p =? "SINK_UNCLASSIFIED")%string then
    Some ("changes system/environment variables",
          "modifies system settings or environment variables")
  else if (p =? "SOURCE_ACCOUNT")%string then
    Some ("changes system/environment variables",
          "modifies system settings or environment variables")
  else if (p =? "SOURCE_USER_INPUT")%string then
    Some ("reads user input", "reads user input")
  else None.

(** [if reason not in report_data: report_data[reason] = usage
     else: report_data[reason] += usage] *)
Definition add_usage (report_data : Perms) (reason : string) (usage : list string) : Perms :=
  match Dict.get report_data reason with
  | None => Dict.set report_data reason usage
  | Some old => Dict.set report_data reason (old ++ usage)%list
  end.

(** One iteration of the loop over [perms.items()]; the local variable
    [reason] ([None] while unbound) and [report_data] are carried along. *)
Definition api_step (item : string * list string)
    (locals : option string * Perms) : M (option string * Perms) :=
  let '(p, usage) := item in
  let '(reason_var, report_data) := locals in
  reason_var <-
    match api_alert p with
    | Some (alert_type, reason) => alert alert_type reason ;; ret (Some reason)
    | None => ret reason_var
    end ;;
  match reason_var with
  | Some reason => ret (reason_var, add_usage report_data reason usage)
  | None =>
      raise (mk_exn NameError
               "cannot access local variable 'reason' where it is not associated with a value")
  end.

Definition analyze_apis_body
    (pm_name : string) (pkg_name ver_str filepath : pyval) : M unit :=
  print "[+] Analyzing APIs..." ;;
  '(language, configpath) <-
    (if (pm_name =? "pypi")%string then
       ret (python, "config/astgen_python_smt.config")
     else if (pm_name =? "npm")%string then
       ret (javascript, "config/astgen_javascript_smt.config")
     else raise (exception "Package manager %s not supported!")) ;;
  lift (get_static_proxy_for_language ext language) ;;
  try_except
    (outfile <- py_add_str filepath ".out" ;;
     lift (astgen ext language filepath outfile configpath pkg_name ver_str))
    is_Exception
    (fun _ => raise (exception "parse error")) ;;
  outfile <- py_add_str filepath ".out" ;;
  assert (path_exists ext outfile) "parse error!" ;;
  perms <- lift (parse_api_usage ext pm_name outfile) ;;
  assert (truthy_dict perms) "No APIs found!" ;;
  let items := match perms with Some d => d | None => [] end in
  '(_, report_data) <- for_each items api_step (None, Dict.empty) ;;
  print ("OK [" ++ str_of_Z (Z.of_nat (Dict.len items)) ++ " analyzed]") ;;
  set_report "permissions" (RPermissions report_data).

Definition analyze_apis
    (pm_name : string) (pkg_name ver_str filepath : pyval) : Stmt :=
  stage (analyze_apis_body pm_name pkg_name ver_str filepath).

End Stages.

(** ** Calls *)

(** [risks, report = f(..., risks=risks, report=report)]: the call runs on the
    caller's two dictionaries and the caller rebinds its names to the pair
    returned. *)
Definition call (f : Stmt) : M unit :=
  fun s =>
    match f s with
    | (Returned (r, rep), s') => (Ok tt, set_report_dict rep (set_risks r s'))
    | (Normal, s') =>
        (Raise (type_error "cannot unpack non-iterable NoneType object"), s')
    | (Raised e, s') => (Raise e, s')
    end.




(** ** The script *)

(** [exit(code)] *)
Definition exit {A} (code : Z) : M A :=
  raise (mk_exn (SystemExit code) (str_of_Z code)).

(** [risks = {}] and [report = {}] *)
Definition new_risks_report : M unit :=
  fun s => (Ok tt, set_report_dict Dict.empty (set_risks Dict.empty s)).

(** Reading the module-level name [filepath]. *)
Definition read_filepath : M pyval :=
  fun s =>
    match filepath_var s with
    | Some v => (Ok v, s)
    | None => (Raise (mk_exn NameError "name 'filepath' is not defined"), s)
    end.

Definition get_risks : M Risks := fun s => (Ok (risks s), s).
Definition get_report : M Report := fun s => (Ok (report s), s).

(** [sum(len(v) for v in risks.values())] *)
Definition count_messages (r : Risks) : nat :=
  fold_right (fun v acc => (length v + acc)%nat) O (Dict.values r).

(** The block [# get version metadata]; it yields the names it rebinds. *)
Definition fetch_metadata (pm_proxy : PmProxy) (pm_name pkg_name : string)
    (ver_str : pyval) : M (pyval * option PkgInfo * option VerInfo * pyval) :=
  try_except
    (print ("[+] Fetching '" ++ pkg_name ++ "' from " ++ pm_name ++ "...") ;;
     pkg_info <- lift (get_metadata pm_proxy (PyStr pkg_name) ver_str) ;;
     assert (truthy_dict pkg_info) "package not found!" ;;
     pkg_name <-
       try_except
         (info <- subscript pkg_info (PyStr "info") ;;
          subscript (Some info) (PyStr "name"))
         is_KeyError
         (fun _ => ret (PyStr pkg_name)) ;;
     ver_info <- lift (get_version pm_proxy pkg_name ver_str pkg_info) ;;
     assert (truthy_dict ver_info) "No version info!" ;;
     ver_str <- (if negb (truthy ver_str) then subscript ver_info (PyStr "tag")
                 else ret ver_str) ;;
     print ("OK [ver " ++ py_str ver_str ++ "]") ;;
     ret (pkg_name, pkg_info, ver_info, ver_str))
    is_Exception
    (fun e => print ("FAILED [" ++ exn_msg e ++ "]") ;; exit 1).

(** The block [# download package]: [filepath] is bound only by the
    assignment of the result of [download_file]. *)
Definition download_package (ext : Imports) (pm_name : string)
    (pkg_name ver_str : pyval) (ver_info : option VerInfo) : M unit :=
  try_except
    (print ("[+] Downloading package '" ++ py_str pkg_name ++ "' (ver " ++
            py_str ver_str ++ ") from " ++ pm_name ++ "...") ;;
     url <- subscript ver_info (PyStr "url") ;;
     '(filepath, size) <- lift (download_file ext url) ;;
     (fun s => (Ok tt, bind_filepath filepath s)) ;;
     text <- lift (fmt_kb ext size) ;;
     print ("OK [" ++ text ++ " KB]"))
    is_Exception
    (fun e =>
       if is_KeyError e then print "FAILED [URL missing]"
       else print ("FAILED [" ++ exn_msg e ++ "]")).

(** Lines 366-390 of the script: the two fresh dictionaries, the eight
    metadata stages, the download, and the API stage. *)
Definition run_stages (ext : Imports) (threat_model : ThreatModel)
    (pm_proxy : PmProxy) (pm_name : string) (pkg_name ver_str : pyval)
    (pkg_info : option PkgInfo) (ver_info : option VerInfo) : M unit :=
  new_risks_report ;;
  call (analyze_version ext threat_model ver_info) ;;
  call (analyze_release_history pm_proxy threat_model pkg_name ver_str pkg_info) ;;
  call (analyze_author ext pm_proxy threat_model pkg_name ver_str pkg_info ver_info) ;;
  call (analyze_readme pm_proxy threat_model pkg_name ver_str pkg_info) ;;
  call (analyze_homepage ext pm_proxy threat_model pkg_name ver_str pkg_info) ;;
  call (analyze_downloads ext threat_model pm_proxy pkg_name) ;;
  call (analyze_repo pm_proxy threat_model pkg_name ver_str pkg_info ver_info) ;;
  call (analyze_cves ext threat_model pm_name pkg_name ver_str) ;;
  download_package ext pm_name pkg_name ver_str ver_info ;;
  filepath <- read_filepath ;;
  if truthy filepath then
    call (analyze_apis ext threat_model pm_name pkg_name ver_str filepath)
  else ret tt.

(** Lines 392-404 of the script: the summary and the JSON report. *)
Definition write_report (ext : Imports) (pm_name : string)
    (pkg_name ver_str : pyval) : M unit :=
  print "=============================================" ;;
  found <- get_risks ;;
  (if (Dict.len found =? 0)%nat then
     print "[+] No risks found!" ;;
     set_report "risks" (RRisks None)
   else
     print ("[+] " ++ str_of_Z (Z.of_nat (count_messages found)) ++
            " risk(s) found, package is " ++ join ", " (Dict.keys found) ++ "!") ;;
     set_report "risks" (RRisks (Some found))) ;;
  let filename := pm_name ++ "-" ++ py_str pkg_name ++ "-" ++ py_str ver_str ++ ".json" in
  content <- get_report ;;
  lift (write_json_to_file ext filename content) ;;
  (fun s => (Ok tt, add_file filename content s)) ;;
  print ("=> Complete report: " ++ filename) ;;
  (if (lower pm_name =? "pypi")%string then
     print ("=> View pre-vetted package report at https://packj.dev/package/PyPi/" ++
            py_str pkg_name ++ "/" ++ py_str ver_str)
   else ret tt).

Definition main (ext : Imports) (argv : list string) : M unit :=
  threat_model <- get_threat_model ext "threats.csv" ;;
  arg1 <- index argv 1 ;;
  let pm_name := lower arg1 in
  pm <- (if (pm_name =? "pypi")%string then ret pypi
         else if (pm_name =? "npm")%string then ret npmjs
         else print ("Package manager " ++ pm_name ++ " is not supported") ;;
              exit 1) ;;
  proxy <- lift (get_pm_proxy ext pm) ;;
  pm_proxy <- match proxy with
              | Some p => ret p
              | None => raise (assertion_error (pm_name ++ " not supported"))
              end ;;
  pkg_name <- index argv 2 ;;
  '(pkg_name, ver_str) <-
    (if str_in "==" pkg_name then
       match split "==" pkg_name with
       | [name; ver] => ret (name, PyStr ver)
       | _ => raise (mk_exn ValueError "too many values to unpack (expected 2)")
       end
     else ret (pkg_name, PyNone)) ;;
  '(pkg_name, pkg_info, ver_info, ver_str) <-
    fetch_metadata pm_proxy pm_name pkg_name ver_str ;;
  run_stages ext threat_model pm_proxy pm_name pkg_name ver_str pkg_info ver_info ;;
  write_report ext pm_name pkg_name ver_str.

(** How the process ends: its exit code, or an uncaught exception (a
    traceback and exit code 1). *)
Inductive exit_status : Type :=
| Exited (code : Z)
| Uncaught (e : exn).

Definition initial_state : state := mk_state Dict.empty Dict.empty [] [] None.

(** Running the script on [argv] (with [argv[0]] the program name). *)
Definition run_main (ext : Imports) (argv : list string) : exit_status * state :=
  match main ext argv initial_state with
  | (Ok _, s) => (Exited 0, s)
  | (Raise e, s) =>
      match exn_cls e with
      | SystemExit code => (Exited code, s)
      | _ => (Uncaught e, s)
      end
  end.

Definition exit_code (st : exit_status) : Z :=
  match st with
  | Exited code => code
  | Uncaught _ => 1
  end.

(** ** Vocabulary of the statements *)

(** The nine stage functions, and the arguments a call may pass them. *)
Inductive stage_name : Type :=
| Version | ReleaseHistory | Author | Readme | Homepage | Downloads | Repo
| Cves | Apis.

Record call_args : Type := mk_args {
  arg_pm_name : string;
  arg_pkg_name : pyval;
  arg_ver_str : pyval;
  arg_pkg_info : option PkgInfo;
  arg_ver_info : option VerInfo;
  arg_filepath : pyval;
  arg_pm_proxy : PmProxy
}.

Section Dispatch.

Variable ext : Imports.
Variable pm_proxy : PmProxy.
Variable threat_model : ThreatModel.

Definition stage_function (f : stage_name) (a : call_args) : Stmt :=
  match f with
  | Version => analyze_version ext threat_model (arg_ver_info a)
  | ReleaseHistory =>
      analyze_release_history pm_proxy threat_model
        (arg_pkg_name a) (arg_ver_str a) (arg_pkg_info a)
  | Author =>
      analyze_author ext pm_proxy threat_model
        (arg_pkg_name a) (arg_ver_str a) (arg_pkg_info a) (arg_ver_info a)
  | Readme =>
      analyze_readme pm_proxy threat_model
        (arg_pkg_name a) (arg_ver_str a) (arg_pkg_info a)
  | Homepage =>
      analyze_homepage ext pm_proxy threat_model
        (arg_pkg_name a) (arg_ver_str a) (arg_pkg_info a)
  | Downloads => analyze_downloads ext threat_model (arg_pm_proxy a) (arg_pkg_name a)
  | Repo =>
      analyze_repo pm_proxy threat_model
        (arg_pkg_name a) (arg_ver_str a) (arg_pkg_info a) (arg_ver_info a)
  | Cves =>
      analyze_cves ext threat_model (arg_pm_name a) (arg_pkg_name a) (arg_ver_str a)
  | Apis =>
      analyze_apis ext threat_model
        (arg_pm_name a) (arg_pkg_name a) (arg_ver_str a) (arg_filepath a)
  end.

(** The statements inside the [try] block of each stage function. *)
Definition stage_body (f : stage_name) (a : call_args) : M unit :=
  match f with
  | Version => analyze_version_body ext threat_model (arg_ver_info a)
  | ReleaseHistory =>
      analyze_release_history_body pm_proxy threat_model
        (arg_pkg_name a) (arg_ver_str a) (arg_pkg_info a)
  | Author =>
      analyze_author_body ext pm_proxy threat_model
        (arg_pkg_name a) (arg_ver_str a) (arg_pkg_info a) (arg_ver_info a)
  | Readme =>
      analyze_readme_body pm_proxy threat_model
        (arg_pkg_name a) (arg_ver_str a) (arg_pkg_info a)
  | Homepage =>
      analyze_homepage_body ext pm_proxy threat_model
        (arg_pkg_name a) (arg_ver_str a) (arg_pkg_info a)
  | Downloads =>
      analyze_downloads_body ext threat_model (arg_pm_proxy a) (arg_pkg_name a)
  | Repo =>
      analyze_repo_body pm_proxy threat_model
        (arg_pkg_name a) (arg_ver_str a) (arg_pkg_info a) (arg_ver_info a)
  | Cves =>
      analyze_cves_body ext threat_model (arg_pm_name a) (arg_pkg_name a) (arg_ver_str a)
  | Apis =>
      analyze_apis_body ext threat_model
        (arg_pm_name a) (arg_pkg_name a) (arg_ver_str a) (arg_filepath a)
  end.

End Dispatch.

(** The line a stage function prints first. *)
Definition banner (f : stage_name) : string :=
  match f with
  | Version => "[+] Checking version..."
  | ReleaseHistory => "[+] Checking release history..."
  | Author => "[+] Checking author..."
  | Readme => "[+] Checking readme..."
  | Homepage => "[+] Checking homepage..."
  | Downloads => "[+] Checking downloads..."
  | Repo => "[+] Checking repo..."
  | Cves => "[+] Checking for CVEs..."
  | Apis => "[+] Analyzing APIs..."
  end.

(** A printed line that announces a stage. *)
Definition is_banner (line : string) : bool :=
  String.prefix "[+] Checking" line || String.prefix "[+] Analyzing" line.

(** The stage announcements among the printed lines, in the order printed. *)
Definition banners (out : list string) : list string := filter is_banner out.

(** [r'] holds every message of [r], category by category, with any new
    messages after them. *)
Definition extends (r r' : Risks) : Prop :=
  forall cat, exists rest, messages r' cat = (messages r cat ++ rest)%list.

(** What a stage leaves alone: the risks only grow, no file is written, the
    name [filepath] is not rebound, and no stage is announced. *)
Record frame (s s' : state) : Prop := mk_frame {
  frame_risks : extends (risks s) (risks s');
  frame_files : files s' = files s;
  frame_filepath : filepath_var s' = filepath_var s;
  frame_banners : banners (stdout s') = banners (stdout s)
}.

(** [m] relates every state it starts in to the state it stops in. *)
Definition preserves (R : state -> state -> Prop) {A} (m : M A) : Prop :=
  forall s, R s (snd (m s)).

(** Every exception [m] raises satisfies [P]. *)
Definition raises {A} (m : M A) (P : exn -> Prop) : Prop :=
  forall s e s', m s = (Raise e, s') -> P e.

(** What the statements around the stages leave alone: no stage is
    announced. *)
Definition quiet (s s' : state) : Prop :=
  banners (stdout s') = banners (stdout s).

(** An exception whose message does not announce a stage. *)
Definition quiet_exn (e : exn) : Prop := is_banner (exn_msg e) = false.

(** ** Sample inputs *)

Definition sample_threat_model : ThreatModel :=
  [("few downloads", "undesirable");
   ("old package", "undesirable");
   ("few versions or releases", "undesirable");
   ("version release after a long gap", "undesirable");
   ("invalid or no homepage", "undesirable");
   ("invalid or no source repo", "undesirable");
   ("no or insufficient readme", "undesirable");
   ("invalid or no author email (2FA not enabled)", "vulnerable");
   ("contains known vulnerablities (CVEs)", "vulnerable");
   ("accesses files and dirs", "malicious");
   ("communicates with external network", "malicious");
   ("generates new code at runtime", "malicious");
   ("accesses obfuscated (hidden) code", "malicious");
   ("accesses system/environment variables", "malicious");
   ("changes system/environment variables", "malicious");
   ("reads user input", "malicious")].

(** The rows of a threat-model file giving [sample_threat_model]. *)
Definition sample_rows : list (list string) :=
  map (fun '(alert_type, cat) => [cat; alert_type]) sample_threat_model.

Definition sample_ver_info : VerInfo :=
  [("tag", PyStr "1.0"); ("uploaded", PyStr "2021-03-04T10:00:00");
   ("url", PyStr "https://files.example.org/demo-1.0.tar.gz")].

(** A registry client for a package with one release, a short description,
    an [http] homepage, no repository and five weekly downloads. *)
Definition sample_pm_proxy (ver_info : VerInfo) : PmProxy :=
  {| get_metadata := fun _ _ => Ok (Some [("info", [("name", PyStr "demo")])]);
     get_version := fun _ _ _ => Ok (Some ver_info);
     get_release_history :=
       fun _ _ => Ok (Some [("1.0", [("days_since_last_release", PyNone)])]);
     get_author := fun _ _ _ _ => Ok (Some [("email", PyStr "dev@example.org")]);
     get_description := fun _ _ _ => Ok (PyStr "A demo.");
     get_homepage := fun _ _ _ => Ok (PyStr "http://example.org");
     get_repo := fun _ _ _ _ => Ok PyNone;
     get_download_url := fun _ _ _ => Ok PyNone;
     get_downloads := fun _ => Ok (PyInt 5) |}.

Definition sample_perms : Perms :=
  [("SINK_NETWORK", ["socket.send"]); ("SOURCE_NETWORK", ["socket.recv"])].

(** The imported functions, with the outcome of the download and the usage
    record of the static analysis left open. *)
Definition sample_ext (ver_info : VerInfo)
    (download : result (pyval * pyval)) (perms : Perms) : Imports :=
  {| read_from_csv := fun _ => Ok sample_rows;
     get_pm_proxy := fun _ => Ok (Some (sample_pm_proxy ver_info));
     datetime_delta := fun _ => Ok (PyInt 400);
     check_email_address := fun _ => Ok (true, true);
     parse_url := fun _ => Ok (mk_parsed "http");
     check_site_exist := fun _ => Ok (true, "");
     check_domain_popular := fun _ => Ok false;
     human_format := fun _ => Ok "5";
     get_pkgver_vulns := fun _ _ _ => Ok (Some []);
     get_static_proxy_for_language := fun _ => Ok tt;
     astgen := fun _ _ _ _ _ _ => Ok tt;
     path_exists := fun _ => true;
     parse_api_usage := fun _ _ => Ok (Some perms);
     download_file := fun _ => download;
     fmt_kb := fun _ => Ok "2.00";
     write_json_to_file := fun _ _ => Ok tt |}.

Definition sample_download : result (pyval * pyval) :=
  Ok (PyStr "/tmp/demo-1.0.tar.gz", PyInt 2048).

Definition sample_argv : list string := ["main.py"; "pypi"; "demo"].

(** A usage record with two of the tags tested late in [analyze_apis]. *)
Definition late_tag_perms : Perms :=
  [("SOURCE_OBFUSCATION", ["base64.b64decode"]); ("SOURCE_USER_INPUT", ["input"])].

(** ** Invariants of the registry and the report *)

(** No category is listed twice and no category is empty. *)
Definition well_formed (r : Risks) : Prop :=
  NoDup (Dict.keys r) /\ Forall (fun msgs => msgs <> []) (Dict.values r).

(** Every message is filed under the category its alert type has in the
    threat model. *)
Definition classified (threat_model : ThreatModel) (r : Risks) : Prop :=
  forall cat msg,
    In msg (messages r cat) ->
    exists alert_type reason,
      msg = alert_message alert_type reason /\
      Dict.get threat_model alert_type = Some cat.

(** A property of the risks that holds after a statement when it held before. *)
Definition keeps (P : Risks -> Prop) (s s' : state) : Prop :=
  P (risks s) -> P (risks s').

(** The state in which a call of a stage function leaves the caller: the one
    its body stopped in, with the [FAILED] line the handler adds. *)
Definition stage_final (body : M unit) (s : state) : state :=
  match body s with
  | (Ok _, s1) => s1
  | (Raise e, s1) =>
      if is_Exception e then add_stdout ("FAILED [" ++ exn_msg e ++ "]") s1 else s1
  end.

(** The report section a stage function writes, if it writes one. *)
Definition section (f : stage_name) : option string :=
  match f with
  | Version => Some "version"
  | ReleaseHistory => Some "releases"
  | Author => Some "author"
  | Readme => None
  | Homepage => Some "homepage"
  | Downloads => None
  | Repo => Some "repo"
  | Cves => Some "vulnerabilities"
  | Apis => Some "permissions"
  end.

(** [m] leaves the report alone when it raises, and when it completes it has
    set the section [key] and nothing else ([None]: it leaves the report
    alone as well). *)
Definition commits (key : option string) {A} (m : M A) : Prop :=
  forall s,
    match m s with
    | (Ok _, s') =>
        match key with
        | Some k => exists v, report s' = Dict.set (report s) k v
        | None => report s' = report s
        end
    | (Raise _, s') => report s' = report s
    end.

(** The statement leaves the report as it was. *)
Definition same_report (s s' : state) : Prop := report s' = report s.


(** The sample imports with another answer of [check_email_address]. *)
Definition sample_ext_email (answer : bool * bool) : Imports :=
  let ext := sample_ext sample_ver_info sample_download sample_perms in
  {| read_from_csv := read_from_csv ext;
     get_pm_proxy := get_pm_proxy ext;
     datetime_delta := datetime_delta ext;
     check_email_address := fun _ => Ok answer;
     parse_url := parse_url ext;
     check_site_exist := check_site_exist ext;
     check_domain_popular := check_domain_popular ext;
     human_format := human_format ext;
     get_pkgver_vulns := get_pkgver_vulns ext;
     get_static_proxy_for_language := get_static_proxy_for_language ext;
     astgen := astgen ext;
     path_exists := path_exists ext;
     parse_api_usage := parse_api_usage ext;
     download_file := download_file ext;
     fmt_kb := fmt_kb ext;
     write_json_to_file := write_json_to_file ext |}.

(** The sample imports with another answer of the vulnerability lookup. *)
Definition sample_ext_vulns (vuln_list : option (list (Dict.t pyval))) : Imports :=
  let ext := sample_ext sample_ver_info sample_download sample_perms in
  {| read_from_csv := read_from_csv ext;
     get_pm_proxy := get_pm_proxy ext;
     datetime_delta := datetime_delta ext;
     check_email_address := check_email_address ext;
     parse_url := parse_url ext;
     check_site_exist := check_site_exist ext;
     check_domain_popular := check_domain_popular ext;
     human_format := human_format ext;
     get_pkgver_vulns := fun _ _ _ => Ok vuln_list;
     get_static_proxy_for_language := get_static_proxy_for_language ext;
     astgen := astgen ext;
     path_exists := path_exists ext;
     parse_api_usage := parse_api_usage ext;
     download_file := download_file ext;
     fmt_kb := fmt_kb ext;
     write_json_to_file := write_json_to_file ext |}.

(** The sample imports with other answers of the URL parser and of the two
    probes of a web page. *)
Definition sample_ext_site (parsed : result ParsedUrl)
    (site : result (bool * string)) (popular : result bool) : Imports :=
  let ext := sample_ext sample_ver_info sample_download sample_perms in
  {| read_from_csv := read_from_csv ext;
     get_pm_proxy := get_pm_proxy ext;
     datetime_delta := datetime_delta ext;
     check_email_address := check_email_address ext;
     parse_url := fun _ => parsed;
     check_site_exist := fun _ => site;
     check_domain_popular := fun _ => popular;
     human_format := human_format ext;
     get_pkgver_vulns := get_pkgver_vulns ext;
     get_static_proxy_for_language := get_static_proxy_for_language ext;
     astgen := astgen ext;
     path_exists := path_exists ext;
     parse_api_usage := parse_api_usage ext;
     download_file := download_file ext;
     fmt_kb := fmt_kb ext;
     write_json_to_file := write_json_to_file ext |}.

(** A registry client that knows no homepage. *)
Definition sample_pm_proxy_no_homepage : PmProxy :=
  let pm := sample_pm_proxy sample_ver_info in
  {| get_metadata := get_metadata pm;
     get_version := get_version pm;
     get_release_history := get_release_history pm;
     get_author := get_author pm;
     get_description := get_description pm;
     get_homepage := fun _ _ _ => Ok PyNone;
     get_repo := get_repo pm;
     get_download_url := get_download_url pm;
     get_downloads := get_downloads pm |}.

(** ** Vocabulary for the usage report *)

(** The reason under which the loop of [analyze_apis] files a tag. *)
Definition reason_of (p : string) : string :=
  match api_alert p with
  | Some (_, reason) => reason
  | None => ""
  end.

(** The alert the loop of [analyze_apis] records for an item. *)
Definition record_item (threat_model : ThreatModel) (r : Risks)
    (item : string * list string) : Risks :=
  match api_alert (fst item) with
  | Some (alert_type, reason) => alert_user alert_type threat_model reason r
  | None => r
  end.

(** The items of a usage record whose tag is filed under [reason]. *)
Definition filed_under (reason : string) (items : Perms) : Perms :=
  filter (fun item => (reason_of (fst item) =? reason)%string) items.

(** * Properties *)

(** ** Dictionaries *)

Module DictFacts.

Lemma get_set_eq {V} (d : Dict.t V) k v : Dict.get (Dict.set d k v) k = Some v.
Proof.
  induction d as [|[k' v'] d IH]; simpl.
  - now rewrite String.eqb_refl.
  - destruct (k' =? k)%string eqn:E; simpl; rewrite E; auto.
Qed.

Lemma get_set_ne {V} (d : Dict.t V) k k' v :
  k <> k' -> Dict.get (Dict.set d k v) k' = Dict.get d k'.
Proof.
  intros Hne. induction d as [|[k0 v0] d IH]; simpl.
  - destruct (k =? k')%string eqn:E; auto.
    apply String.eqb_eq in E. contradiction.
  - destruct (k0 =? k)%string eqn:E; simpl.
    + apply String.eqb_eq in E. subst k0.
      destruct (k =? k')%string eqn:E'; auto.
      apply String.eqb_eq in E'. contradiction.
    + now rewrite IH.
Qed.

Lemma mem_set {V} (d : Dict.t V) k k' v :
  Dict.mem d k' = true -> Dict.mem (Dict.set d k v) k' = true.
Proof.
  unfold Dict.mem. destruct (String.eqb_spec k k') as [->|Hne].
  - now rewrite get_set_eq.
  - now rewrite get_set_ne.
Qed.

Lemma mem_set_eq {V} (d : Dict.t V) k v : Dict.mem (Dict.set d k v) k = true.
Proof. unfold Dict.mem. now rewrite get_set_eq. Qed.

Lemma mem_true_get {V} (d : Dict.t V) k :
  Dict.mem d k = true -> exists v, Dict.get d k = Some v.
Proof. unfold Dict.mem. destruct (Dict.get d k); [eauto | discriminate]. Qed.

Lemma mem_false_get {V} (d : Dict.t V) k :
  Dict.mem d k = false -> Dict.get d k = None.
Proof. unfold Dict.mem. destruct (Dict.get d k); [discriminate | auto]. Qed.

End DictFacts.

(** ** The alert registry *)

Lemma append_message_same risks cat msg :
  messages (append_message risks cat msg) cat = (messages risks cat ++ [msg])%list.
Proof.
  unfold append_message, messages.
  destruct (Dict.mem risks cat) eqn:Hm.
  - apply DictFacts.mem_true_get in Hm as [l Hl].
    rewrite Hl. now rewrite DictFacts.get_set_eq.
  - apply DictFacts.mem_false_get in Hm. rewrite Hm.
    rewrite DictFacts.get_set_eq. now rewrite DictFacts.get_set_eq.
Qed.

Lemma append_message_other risks cat cat' msg :
  cat <> cat' ->
  Dict.get (append_message risks cat msg) cat' = Dict.get risks cat'.
Proof.
  intros Hne. unfold append_message.
  destruct (Dict.mem risks cat) eqn:Hm.
  - apply DictFacts.mem_true_get in Hm as [l Hl].
    rewrite Hl. now apply DictFacts.get_set_ne.
  - rewrite DictFacts.get_set_eq.
    rewrite DictFacts.get_set_ne by assumption.
    now apply DictFacts.get_set_ne.
Qed.

Lemma append_message_mem risks cat msg :
  Dict.mem (append_message risks cat msg) cat = true.
Proof.
  unfold append_message.
  destruct (Dict.mem risks cat) eqn:Hm.
  - apply DictFacts.mem_true_get in Hm as [l Hl].
    rewrite Hl. apply DictFacts.mem_set_eq.
  - rewrite DictFacts.get_set_eq. apply DictFacts.mem_set_eq.
Qed.

(** C5.  For every threat model, alert type, reason and risks mapping:
    when the alert type is not a key of the threat model, [alert_user]
    returns the risks unchanged; when the threat model maps it to a category,
    the message ["<alert_type>: <reason>"] is appended at the end of that
    category's message list (the entry exists afterwards, holding exactly that
    message when it was absent before), every other category is left as it
    was, and recording the same pair twice leaves two copies, in order, after
    the earlier messages. *)
Theorem alert_user_appends :
  forall (threat_model : ThreatModel) (alert_type reason : string) (risks : Risks),
    (Dict.get threat_model alert_type = None ->
     alert_user alert_type threat_model reason risks = risks) /\
    (forall cat, Dict.get threat_model alert_type = Some cat ->
       let risks1 := alert_user alert_type threat_model reason risks in
       let risks2 := alert_user alert_type threat_model reason risks1 in
       let msg := alert_type ++ ": " ++ reason in
       Dict.mem risks1 cat = true /\
       messages risks1 cat = (messages risks cat ++ [msg])%list /\
       (Dict.mem risks cat = false -> Dict.get risks1 cat = Some [msg]) /\
       (forall cat', cat <> cat' -> Dict.get risks1 cat' = Dict.get risks cat') /\
       messages risks2 cat = (messages risks cat ++ [msg; msg])%list).
Proof.
  intros tm ty reason risks. split.
  - intros Hnone. unfold alert_user. now rewrite Hnone.
  - intros cat Hcat. cbv zeta. unfold alert_user. rewrite Hcat.
    fold (alert_message ty reason).
    repeat split.
    + apply append_message_mem.
    + apply append_message_same.
    + intros Habs.
      pose proof (append_message_same risks cat (alert_message ty reason)) as H.
      unfold messages in H.
      rewrite (DictFacts.mem_false_get _ _ Habs) in H.
      pose proof (append_message_mem risks cat (alert_message ty reason)) as Hm.
      apply DictFacts.mem_true_get in Hm as [l Hl].
      rewrite Hl in H. now rewrite Hl, H.
    + intros cat' Hne. now apply append_message_other.
    + rewrite !append_message_same. now rewrite <- app_assoc.
Qed.

Lemma alert_user_appends_witness :
  Dict.get sample_threat_model "few downloads" = Some "undesirable" /\
  messages
    (alert_user "few downloads" sample_threat_model "only 5 weekly downloads"
       (alert_user "few downloads" sample_threat_model "only 5 weekly downloads" []))
    "undesirable"
  = ["few downloads: only 5 weekly downloads"; "few downloads: only 5 weekly downloads"].
Proof.
  split; [reflexivity|].
  exact (proj2 (proj2 (proj2 (proj2
    (proj2 (alert_user_appends sample_threat_model "few downloads"
              "only 5 weekly downloads" []) "undesirable" eq_refl))))).
Defined.

(** ** Growth of the registry *)

Lemma extends_refl r : extends r r.
Proof. intros cat. exists []. now rewrite app_nil_r. Qed.

Lemma extends_trans r1 r2 r3 : extends r1 r2 -> extends r2 r3 -> extends r1 r3.
Proof.
  intros H12 H23 cat.
  destruct (H12 cat) as [l1 E1]. destruct (H23 cat) as [l2 E2].
  exists (l1 ++ l2)%list. now rewrite E2, E1, app_assoc.
Qed.

Lemma extends_alert_user tm alert_type reason r :
  extends r (alert_user alert_type tm reason r).
Proof.
  unfold alert_user. destruct (Dict.get tm alert_type) as [cat|].
  - intros cat'. destruct (String.eqb_spec cat cat') as [<-|Hne].
    + eexists. apply append_message_same.
    + exists []. unfold messages.
      rewrite append_message_other by assumption. now rewrite app_nil_r.
  - apply extends_refl.
Qed.

Lemma frame_refl s : frame s s.
Proof. split; auto using extends_refl. Qed.

Lemma frame_trans s1 s2 s3 : frame s1 s2 -> frame s2 s3 -> frame s1 s3.
Proof.
  intros [Hr1 Hf1 Hp1 Hb1] [Hr2 Hf2 Hp2 Hb2]. split.
  - eapply extends_trans; eauto.
  - congruence.
  - congruence.
  - congruence.
Qed.

(** ** Statements that stay within a relation *)

Section Preserves.

Variable R : state -> state -> Prop.
Hypothesis R_refl : forall s, R s s.
Hypothesis R_trans : forall s1 s2 s3, R s1 s2 -> R s2 s3 -> R s1 s3.

Lemma preserves_ret {A} (a : A) : preserves R (ret a).
Proof. intros s. apply R_refl. Qed.

Lemma preserves_raise {A} (e : exn) : preserves R (@raise A e).
Proof. intros s. apply R_refl. Qed.

Lemma preserves_lift {A} (r : result A) : preserves R (lift r).
Proof. intros s. apply R_refl. Qed.

Lemma preserves_bind {A B} (m : M A) (k : A -> M B) :
  preserves R m -> (forall a, preserves R (k a)) -> preserves R (bind m k).
Proof.
  intros Hm Hk s. unfold bind. specialize (Hm s).
  destruct (m s) as [[a|e] s1]; simpl in *.
  - eapply R_trans; [exact Hm | apply Hk].
  - exact Hm.
Qed.

Lemma preserves_try_except {A} (m : M A) catches (h : exn -> M A) (P : exn -> Prop) :
  preserves R m -> raises m P -> (forall e, P e -> preserves R (h e)) ->
  preserves R (try_except m catches h).
Proof.
  intros Hm HP Hh s. unfold try_except. specialize (Hm s). specialize (HP s).
  destruct (m s) as [[a|e] s1]; simpl in *; auto.
  destruct (catches e); simpl; auto.
  eapply R_trans; [exact Hm | apply Hh; eauto].
Qed.

Lemma preserves_for_each {X B} (l : list X) (f : X -> B -> M B) :
  (forall x b, preserves R (f x b)) -> forall acc, preserves R (for_each l f acc).
Proof.
  intros Hf. induction l as [|x l IH]; intros acc; simpl.
  - apply preserves_ret.
  - apply preserves_bind; auto.
Qed.

Lemma preserves_map_m {X Y} (f : X -> M Y) (l : list X) :
  (forall x, preserves R (f x)) -> preserves R (map_m f l).
Proof.
  intros Hf. induction l as [|x l IH]; simpl.
  - apply preserves_ret.
  - apply preserves_bind; [auto | intros y].
    apply preserves_bind; [auto | intros ys; apply preserves_ret].
Qed.

Lemma preserves_assert b msg : preserves R (assert b msg).
Proof. unfold assert. destruct b; [apply preserves_ret | apply preserves_raise]. Qed.

Lemma preserves_subscript {V} (d : option (Dict.t V)) k : preserves R (subscript d k).
Proof.
  unfold subscript. destruct d as [d|]; [|apply preserves_raise].
  destruct k; try apply preserves_raise.
  destruct (Dict.get d s); [apply preserves_ret | apply preserves_raise].
Qed.

Lemma preserves_py_gt v n : preserves R (py_gt v n).
Proof. destruct v; simpl; (apply preserves_ret || apply preserves_raise). Qed.

Lemma preserves_py_lt v n : preserves R (py_lt v n).
Proof. destruct v; simpl; (apply preserves_ret || apply preserves_raise). Qed.

Lemma preserves_fmt_d v : preserves R (fmt_d v).
Proof. destruct v; simpl; (apply preserves_ret || apply preserves_raise). Qed.

Lemma preserves_py_len v : preserves R (py_len v).
Proof. destruct v; simpl; (apply preserves_ret || apply preserves_raise). Qed.

Lemma preserves_py_startswith v ps : preserves R (py_startswith v ps).
Proof.
  destruct v; simpl; unfold no_attribute; (apply preserves_ret || apply preserves_raise).
Qed.

Lemma preserves_py_strip v : preserves R (py_strip v).
Proof.
  destruct v; simpl; unfold no_attribute; (apply preserves_ret || apply preserves_raise).
Qed.

Lemma preserves_py_add_str v suffix : preserves R (py_add_str v suffix).
Proof. destruct v; simpl; (apply preserves_ret || apply preserves_raise). Qed.

Lemma preserves_index {X} (l : list X) i : preserves R (index l i).
Proof.
  unfold index. destruct (nth_error l i); [apply preserves_ret | apply preserves_raise].
Qed.

Lemma preserves_join_values sep l : forall i, preserves R (join_values sep i l).
Proof.
  induction l as [|v l IH]; intros i; simpl.
  - apply preserves_ret.
  - destruct v; try apply preserves_raise.
    apply preserves_bind; [auto | intros r; apply preserves_ret].
Qed.

End Preserves.

(** ** What the statements of a stage leave alone *)

Lemma banners_add_quiet line out :
  is_banner line = false -> banners (out ++ [line]) = banners out.
Proof.
  intros H. unfold banners. rewrite filter_app. simpl. rewrite H. apply app_nil_r.
Qed.

Lemma banners_add_banner line out :
  is_banner line = true -> banners (out ++ [line]) = (banners out ++ [line])%list.
Proof.
  intros H. unfold banners. rewrite filter_app. simpl. now rewrite H.
Qed.

Lemma frame_print line : is_banner line = false -> preserves frame (print line).
Proof.
  intros H s. split; simpl; auto using extends_refl.
  now apply banners_add_quiet.
Qed.

Lemma frame_set_report key v : preserves frame (set_report key v).
Proof. intros s. split; simpl; auto using extends_refl. Qed.

Lemma frame_alert tm alert_type reason : preserves frame (alert tm alert_type reason).
Proof. intros s. split; simpl; auto using extends_alert_user. Qed.

Lemma str_of_Z_not_banner n : is_banner (str_of_Z n) = false.
Proof.
  unfold str_of_Z. destruct n as [|p|p]; simpl; try reflexivity;
    destruct (Pos.to_uint p); reflexivity.
Qed.

Lemma py_repr_not_banner v : is_banner (py_repr v) = false.
Proof. destruct v; simpl; auto using str_of_Z_not_banner. Qed.

Lemma raises_ret {A} (a : A) P : raises (ret a) P.
Proof. intros s e s' H. discriminate. Qed.

Lemma raises_raise {A} e (P : exn -> Prop) : P e -> raises (@raise A e) P.
Proof. intros HP s e' s' H. inversion H. now subst. Qed.

Lemma raises_bind {A B} (m : M A) (k : A -> M B) P :
  raises m P -> (forall a, raises (k a) P) -> raises (bind m k) P.
Proof.
  intros Hm Hk s e s' H. unfold bind in H.
  destruct (m s) as [[a|e0] s1] eqn:E.
  - eapply Hk; eauto.
  - inversion H; subst. eapply Hm; eauto.
Qed.

Lemma raises_any {A} (m : M A) : raises m (fun _ => True).
Proof. intros s e s' _. exact I. Qed.

Lemma raises_subscript {V} (d : option (Dict.t V)) k : raises (subscript d k) quiet_exn.
Proof.
  unfold subscript. destruct d as [d|]; [|now apply raises_raise].
  destruct k; try (apply raises_raise; apply py_repr_not_banner).
  destruct (Dict.get d s); [apply raises_ret|].
  apply raises_raise. apply py_repr_not_banner.
Qed.

Lemma raises_py_gt v n : raises (py_gt v n) quiet_exn.
Proof. destruct v; simpl; (apply raises_ret || now apply raises_raise). Qed.

Lemma raises_fmt_d v : raises (fmt_d v) quiet_exn.
Proof. destruct v; simpl; (apply raises_ret || now apply raises_raise). Qed.

Lemma raises_alert tm alert_type reason P : raises (alert tm alert_type reason) P.
Proof. intros s e s' H. discriminate. Qed.

(** One step through a statement, for a reflexive and transitive relation;
    [prim] settles the statements that write to the state. *)
Ltac pres_step Hrefl Htrans prim :=
  first
    [ apply (preserves_ret _ Hrefl)
    | apply (preserves_raise _ Hrefl)
    | apply (preserves_lift _ Hrefl)
    | apply (preserves_assert _ Hrefl)
    | apply (preserves_subscript _ Hrefl)
    | apply (preserves_py_gt _ Hrefl)
    | apply (preserves_py_lt _ Hrefl)
    | apply (preserves_fmt_d _ Hrefl)
    | apply (preserves_py_len _ Hrefl)
    | apply (preserves_py_startswith _ Hrefl)
    | apply (preserves_py_strip _ Hrefl)
    | apply (preserves_py_add_str _ Hrefl)
    | apply (preserves_index _ Hrefl)
    | apply (preserves_join_values _ Hrefl Htrans)
    | prim
    | apply (preserves_bind _ Htrans); [ | intros ? ]
    | apply (preserves_map_m _ Hrefl Htrans); intros ?
    | apply (preserves_for_each _ Hrefl Htrans); intros ? ?
    | progress unfold api_step, keep_if_hosted, exit
    | apply (preserves_try_except _ Htrans _ _ _ (fun _ => True));
      [ | apply raises_any | intros ? _ ]
    | match goal with
      | |- preserves _ (if ?b then _ else _) => destruct b
      | |- preserves _ (match ?x with _ => _ end) => destruct x
      end ].

Ltac frame_prim :=
  first [ apply frame_set_report | apply frame_alert | apply frame_print; reflexivity ].

Ltac frame_step := pres_step frame_refl frame_trans frame_prim.

Ltac frame_auto := repeat frame_step.

Section StageFrames.

Variable ext : Imports.
Variable pm_proxy : PmProxy.
Variable threat_model : ThreatModel.

Lemma after_banner b (k : unit -> M unit) :
  preserves frame (k tt) ->
  forall s, frame (add_stdout b s) (snd (bind (print b) k s)).
Proof. intros H s. apply (H (add_stdout b s)). Qed.

Lemma analyze_version_frame ver_info s :
  frame (add_stdout (banner Version) s)
        (snd (analyze_version_body ext threat_model ver_info s)).
Proof. apply after_banner. cbv beta. frame_auto. Qed.

Lemma long_gap_check_raises (release_history : option History) ver_str :
  raises
    (bind (subscript release_history ver_str) (fun entry =>
     bind (subscript (Some entry) (PyStr "days_since_last_release")) (fun days =>
     bind (if truthy days then py_gt days 180 else ret false) (fun long_gap =>
     if long_gap then
       bind (fmt_d days) (fun text =>
         alert threat_model "version release after a long gap"
               ("version released after " ++ text ++ " days"))
     else ret tt))))
    quiet_exn.
Proof.
  apply raises_bind; [apply raises_subscript | intros entry].
  apply raises_bind; [apply raises_subscript | intros days].
  apply raises_bind.
  - destruct (truthy days); [apply raises_py_gt | apply raises_ret].
  - intros [|]; [|apply raises_ret].
    apply raises_bind; [apply raises_fmt_d | intros text; apply raises_alert].
Qed.

Lemma analyze_release_history_frame pkg_name ver_str pkg_info s :
  frame (add_stdout (banner ReleaseHistory) s)
        (snd (analyze_release_history_body pm_proxy threat_model
                pkg_name ver_str pkg_info s)).
Proof.
  apply after_banner. cbv beta.
  apply (preserves_bind frame frame_trans); [frame_auto | intros release_history].
  apply (preserves_bind frame frame_trans); [frame_auto | intros _].
  cbv zeta.
  apply (preserves_bind frame frame_trans); [ | intros _; frame_auto].
  match goal with |- preserves _ (if ?b then _ else _) => destruct b end;
    [frame_auto|].
  apply (preserves_try_except frame frame_trans _ _ _ quiet_exn).
  - frame_auto.
  - apply long_gap_check_raises.
  - intros e He. now apply frame_print.
Qed.

Lemma analyze_author_frame pkg_name ver_str pkg_info ver_info s :
  frame (add_stdout (banner Author) s)
        (snd (analyze_author_body ext pm_proxy threat_model
                pkg_name ver_str pkg_info ver_info s)).
Proof. apply after_banner. cbv beta. frame_auto. Qed.

Lemma analyze_readme_frame pkg_name ver_str pkg_info s :
  frame (add_stdout (banner Readme) s)
        (snd (analyze_readme_body pm_proxy threat_model pkg_name ver_str pkg_info s)).
Proof. apply after_banner. cbv beta. frame_auto. Qed.

Lemma analyze_homepage_frame pkg_name ver_str pkg_info s :
  frame (add_stdout (banner Homepage) s)
        (snd (analyze_homepage_body ext pm_proxy threat_model
                pkg_name ver_str pkg_info s)).
Proof. apply after_banner. cbv beta. frame_auto. Qed.

Lemma analyze_downloads_frame pm_proxy' pkg_name s :
  frame (add_stdout (banner Downloads) s)
        (snd (analyze_downloads_body ext threat_model pm_proxy' pkg_name s)).
Proof. apply after_banner. cbv beta. frame_auto. Qed.

Lemma analyze_repo_frame pkg_name ver_str pkg_info ver_info s :
  frame (add_stdout (banner Repo) s)
        (snd (analyze_repo_body pm_proxy threat_model
                pkg_name ver_str pkg_info ver_info s)).
Proof. apply after_banner. cbv beta. frame_auto. Qed.

Lemma analyze_cves_frame pm_name pkg_name ver_str s :
  frame (add_stdout (banner Cves) s)
        (snd (analyze_cves_body ext threat_model pm_name pkg_name ver_str s)).
Proof. apply after_banner. cbv beta. frame_auto. Qed.

Lemma analyze_apis_frame pm_name pkg_name ver_str filepath s :
  frame (add_stdout (banner Apis) s)
        (snd (analyze_apis_body ext threat_model pm_name pkg_name ver_str filepath s)).
Proof. apply after_banner. cbv beta. frame_auto. Qed.


End StageFrames.


(** ** The frame [try ... except Exception ... finally: return] *)

Lemma bind_ok {A B} (m : M A) (k : A -> M B) s a s' :
  m s = (Ok a, s') -> bind m k s = k a s'.
Proof. intros H. unfold bind. now rewrite H. Qed.

Lemma bind_raise {A B} (m : M A) (k : A -> M B) s e s' :
  m s = (Raise e, s') -> bind m k s = (Raise e, s').
Proof. intros H. unfold bind. now rewrite H. Qed.

(** Whatever the body does, the function returns the two dictionaries as the
    body left them; the handler adds at most a line to the output. *)
Lemma stage_returns (body : M unit) s :
  exists s2,
    stage body s = (Returned (risks (snd (body s)), report (snd (body s))), s2) /\
    risks s2 = risks (snd (body s)) /\
    report s2 = report (snd (body s)) /\
    files s2 = files (snd (body s)) /\
    filepath_var s2 = filepath_var (snd (body s)) /\
    banners (stdout s2) = banners (stdout (snd (body s))).
Proof.
  unfold stage, try_finally, try_except_Exception, exec, return_risks_report.
  destruct (body s) as [[[]|e] s1]; simpl.
  - exists s1. repeat split; reflexivity.
  - destruct (is_Exception e); simpl.
    + eexists. split; [reflexivity|]. simpl. repeat split.
      now apply banners_add_quiet.
    + exists s1. repeat split; reflexivity.
Qed.

Lemma stage_function_unfold ext pm_proxy threat_model f a :
  stage_function ext pm_proxy threat_model f a =
  stage (stage_body ext pm_proxy threat_model f a).
Proof. destruct f; reflexivity. Qed.


(** ** The order of the stages *)

Lemma call_stage (body : M unit) b :
  (forall s, frame (add_stdout b s) (snd (body s))) ->
  is_banner b = true ->
  forall s, exists s',
    call (stage body) s = (Ok tt, s') /\
    extends (risks s) (risks s') /\
    files s' = files s /\
    filepath_var s' = filepath_var s /\
    banners (stdout s') = (banners (stdout s) ++ [b])%list.
Proof.
  intros Hbody Hb s.
  destruct (stage_returns body s) as (s2 & E & Hr & Hp & Hf & Hv & Ho).
  destruct (Hbody s) as [Fr Ff Fv Fo]. simpl in *.
  unfold call. rewrite E. eexists. split; [reflexivity|]. simpl.
  split; [exact Fr|]. split; [congruence|]. split; [congruence|].
  rewrite Ho, Fo. now apply banners_add_banner.
Qed.

Lemma quiet_refl s : quiet s s.
Proof. reflexivity. Qed.

Lemma quiet_trans s1 s2 s3 : quiet s1 s2 -> quiet s2 s3 -> quiet s1 s3.
Proof. unfold quiet. congruence. Qed.

Lemma quiet_print line : is_banner line = false -> preserves quiet (print line).
Proof. intros H s. unfold quiet. simpl. now apply banners_add_quiet. Qed.

Lemma quiet_same_stdout {A} (m : M A) :
  (forall s, stdout (snd (m s)) = stdout s) -> preserves quiet m.
Proof. intros H s. unfold quiet. now rewrite H. Qed.

Ltac quiet_prim :=
  first [ apply quiet_print; reflexivity
        | apply quiet_same_stdout; intros ?; reflexivity ].

Ltac quiet_step := pres_step quiet_refl quiet_trans quiet_prim.

Lemma download_package_quiet ext pm_name pkg_name ver_str ver_info :
  preserves quiet (download_package ext pm_name pkg_name ver_str ver_info).
Proof. unfold download_package. repeat quiet_step. Qed.

Lemma download_package_files ext pm_name pkg_name ver_str ver_info s :
  files (snd (download_package ext pm_name pkg_name ver_str ver_info s)) = files s.
Proof.
  unfold download_package, try_except, bind, print, subscript, lift, ret, raise.
  destruct ver_info as [d|]; simpl.
  - destruct (Dict.get d "url") as [url|]; simpl; [|reflexivity].
    destruct (download_file ext url) as [[fp size]|e]; simpl.
    + destruct (fmt_kb ext size) as [text|e]; simpl; [reflexivity|].
      destruct (is_Exception e); [destruct (is_KeyError e)|]; reflexivity.
    + destruct (is_Exception e); [destruct (is_KeyError e)|]; reflexivity.
  - reflexivity.
Qed.

Section Order.

Variable ext : Imports.
Variable threat_model : ThreatModel.
Variable pm_proxy : PmProxy.

Lemma call_analyze_apis pm_name pkg_name ver_str filepath s :
  exists s',
    call (analyze_apis ext threat_model pm_name pkg_name ver_str filepath) s
    = (Ok tt, s') /\
    extends (risks s) (risks s') /\ files s' = files s /\
    filepath_var s' = filepath_var s /\
    banners (stdout s') = (banners (stdout s) ++ [banner Apis])%list.
Proof.
  apply call_stage; [|reflexivity]. intros s0. apply analyze_apis_frame.
Qed.

(** The eight metadata stages always run, one after the other, and hand over
    to the download with no file written and [filepath] as it was. *)
Lemma metadata_stages_run pm_name pkg_name ver_str pkg_info ver_info s :
  exists s8,
    run_stages ext threat_model pm_proxy pm_name pkg_name ver_str pkg_info ver_info s
    = bind (download_package ext pm_name pkg_name ver_str ver_info)
        (fun _ => bind read_filepath (fun filepath =>
           if truthy filepath then
             call (analyze_apis ext threat_model pm_name pkg_name ver_str filepath)
           else ret tt)) s8 /\
    banners (stdout s8)
    = (banners (stdout s) ++
       map banner [Version; ReleaseHistory; Author; Readme; Homepage;
                   Downloads; Repo; Cves])%list /\
    files s8 = files s /\
    filepath_var s8 = filepath_var s.
Proof.
  unfold run_stages.
  rewrite (bind_ok new_risks_report _ s tt _ eq_refl).
  set (s0 := set_report_dict Dict.empty (set_risks Dict.empty s)).
  assert (B0 : banners (stdout s0) = banners (stdout s)) by reflexivity.
  assert (F0 : files s0 = files s) by reflexivity.
  assert (V0 : filepath_var s0 = filepath_var s) by reflexivity.
  clearbody s0.
  destruct (call_stage _ (banner Version)
              (analyze_version_frame ext threat_model ver_info) eq_refl s0)
    as (s1 & E1 & _ & F1 & V1 & B1).
  unfold analyze_version at 1. rewrite (bind_ok _ _ _ _ _ E1).
  destruct (call_stage _ (banner ReleaseHistory)
              (analyze_release_history_frame pm_proxy threat_model
                 pkg_name ver_str pkg_info) eq_refl s1)
    as (s2 & E2 & _ & F2 & V2 & B2).
  unfold analyze_release_history at 1. rewrite (bind_ok _ _ _ _ _ E2).
  destruct (call_stage _ (banner Author)
              (analyze_author_frame ext pm_proxy threat_model
                 pkg_name ver_str pkg_info ver_info) eq_refl s2)
    as (s3 & E3 & _ & F3 & V3 & B3).
  unfold analyze_author at 1. rewrite (bind_ok _ _ _ _ _ E3).
  destruct (call_stage _ (banner Readme)
              (analyze_readme_frame pm_proxy threat_model
                 pkg_name ver_str pkg_info) eq_refl s3)
    as (s4 & E4 & _ & F4 & V4 & B4).
  unfold analyze_readme at 1. rewrite (bind_ok _ _ _ _ _ E4).
  destruct (call_stage _ (banner Homepage)
              (analyze_homepage_frame ext pm_proxy threat_model
                 pkg_name ver_str pkg_info) eq_refl s4)
    as (s5 & E5 & _ & F5 & V5 & B5).
  unfold analyze_homepage at 1. rewrite (bind_ok _ _ _ _ _ E5).
  destruct (call_stage _ (banner Downloads)
              (analyze_downloads_frame ext threat_model pm_proxy pkg_name)
              eq_refl s5)
    as (s6 & E6 & _ & F6 & V6 & B6).
  unfold analyze_downloads at 1. rewrite (bind_ok _ _ _ _ _ E6).
  destruct (call_stage _ (banner Repo)
              (analyze_repo_frame pm_proxy threat_model
                 pkg_name ver_str pkg_info ver_info) eq_refl s6)
    as (s7 & E7 & _ & F7 & V7 & B7).
  unfold analyze_repo at 1. rewrite (bind_ok _ _ _ _ _ E7).
  destruct (call_stage _ (banner Cves)
              (analyze_cves_frame ext threat_model pm_name pkg_name ver_str)
              eq_refl s7)
    as (s8 & E8 & _ & F8 & V8 & B8).
  unfold analyze_cves at 1. rewrite (bind_ok _ _ _ _ _ E8).
  assert (B : banners (stdout s8)
              = (banners (stdout s) ++
                 map banner [Version; ReleaseHistory; Author; Readme; Homepage;
                             Downloads; Repo; Cves])%list).
  { rewrite B8, B7, B6, B5, B4, B3, B2, B1, B0. simpl.
    repeat rewrite <- app_assoc. reflexivity. }
  assert (F : files s8 = files s) by congruence.
  exists s8. split; [reflexivity|]. split; [exact B|]. split; congruence.
Qed.

(** The stages announce themselves in the order of the calls of the script,
    the API stage last and only when it runs; no file is written meanwhile. *)
Lemma run_stages_banners pm_name pkg_name ver_str pkg_info ver_info s :
  exists r s' tail,
    run_stages ext threat_model pm_proxy pm_name pkg_name ver_str pkg_info ver_info s
    = (r, s') /\
    banners (stdout s')
    = (banners (stdout s) ++
       map banner [Version; ReleaseHistory; Author; Readme; Homepage;
                   Downloads; Repo; Cves] ++ tail)%list /\
    (tail = [] \/ tail = [banner Apis]) /\
    files s' = files s.
Proof.
  destruct (metadata_stages_run pm_name pkg_name ver_str pkg_info ver_info s)
    as (s8 & -> & B & F & _).
  pose proof (download_package_quiet ext pm_name pkg_name ver_str ver_info s8) as Q.
  pose proof (download_package_files ext pm_name pkg_name ver_str ver_info s8) as Fd.
  unfold quiet in Q. unfold bind at 1.
  destruct (download_package ext pm_name pkg_name ver_str ver_info s8)
    as [[[]|e] s9]; simpl in Q, Fd.
  - unfold bind, read_filepath.
    destruct (filepath_var s9) as [v|]; simpl.
    + destruct (truthy v).
      * destruct (call_analyze_apis pm_name pkg_name ver_str v s9)
          as (s10 & E10 & _ & F10 & _ & B10).
        rewrite E10. exists (Ok tt), s10, [banner Apis].
        split; [reflexivity|]. split; [|split; [auto | congruence]].
        rewrite B10, Q, B. simpl. now rewrite <- app_assoc.
      * eexists _, _, []. split; [reflexivity|].
        split; [|split; [auto | congruence]].
        rewrite Q, B. simpl. now rewrite ?app_nil_r.
    + eexists _, _, []. split; [reflexivity|].
      split; [|split; [auto | congruence]].
      rewrite Q, B. simpl. now rewrite ?app_nil_r.
  - eexists _, _, []. split; [reflexivity|].
    split; [|split; [auto | congruence]].
    rewrite Q, B. simpl. now rewrite ?app_nil_r.
Qed.

End Order.

Lemma summary_line_not_banner n rest :
  is_banner ("[+] " ++ str_of_Z n ++ rest) = false.
Proof.
  unfold str_of_Z. destruct n as [|p|p]; simpl; try reflexivity;
    destruct (Pos.to_uint p); reflexivity.
Qed.

Lemma write_report_quiet ext pm_name pkg_name ver_str :
  preserves quiet (write_report ext pm_name pkg_name ver_str).
Proof.
  unfold write_report, get_risks, get_report.
  apply (preserves_bind _ quiet_trans); [quiet_prim | intros _].
  apply (preserves_bind _ quiet_trans); [quiet_prim | intros found].
  apply (preserves_bind _ quiet_trans).
  - destruct (Dict.len found =? 0)%nat.
    + repeat quiet_step.
    + apply (preserves_bind _ quiet_trans); [ | intros _; quiet_prim].
      apply quiet_print. apply summary_line_not_banner.
  - intros _. cbv zeta. repeat quiet_step.
Qed.

Lemma get_threat_model_quiet ext filename :
  preserves quiet (get_threat_model ext filename).
Proof. unfold get_threat_model. repeat quiet_step. Qed.

Lemma fetch_metadata_quiet pm_proxy pm_name pkg_name ver_str :
  preserves quiet (fetch_metadata pm_proxy pm_name pkg_name ver_str).
Proof. unfold fetch_metadata. repeat quiet_step. Qed.

Lemma run_main_state ext argv :
  snd (run_main ext argv) = snd (main ext argv initial_state).
Proof.
  unfold run_main. destruct (main ext argv initial_state) as [[a|e] s]; simpl.
  - reflexivity.
  - destruct (exn_cls e); reflexivity.
Qed.

(** While the script has announced no stage, a statement that announces none
    hands over to the rest of the script in such a state. *)
Lemma before_stages {A B} (m : M A) (k : A -> M B) (P : list string -> Prop) s :
  preserves quiet m ->
  banners (stdout s) = [] ->
  P [] ->
  (forall a s1, banners (stdout s1) = [] -> P (banners (stdout (snd (k a s1))))) ->
  P (banners (stdout (snd (bind m k s)))).
Proof.
  intros Hm Hs Hnil Hk. unfold bind. specialize (Hm s). unfold quiet in Hm.
  destruct (m s) as [[a|e] s1]; simpl in *.
  - apply Hk. congruence.
  - rewrite Hm, Hs. exact Hnil.
Qed.

(** C3, as the script has it.  Once the script reaches its stages, whatever
    the arguments and the outcomes of the external calls, the stages announced
    from there on are, in this order: version, release history, author,
    readme, homepage, downloads, repo, CVEs, and then API analysis when that
    stage runs.  So the stage announcements of a whole run, on every command
    line, are that sequence, or none when the run stops during its setup.
    The download check comes before the repository check. *)
Theorem stages_run_in_call_order :
  (forall ext threat_model pm_proxy pm_name pkg_name ver_str pkg_info ver_info s,
     let out := banners (stdout (snd (run_stages ext threat_model pm_proxy pm_name
                                        pkg_name ver_str pkg_info ver_info s))) in
     out = (banners (stdout s) ++
            map banner [Version; ReleaseHistory; Author; Readme; Homepage;
                        Downloads; Repo; Cves])%list \/
     out = (banners (stdout s) ++
            map banner [Version; ReleaseHistory; Author; Readme; Homepage;
                        Downloads; Repo; Cves; Apis])%list) /\
  (forall (ext : Imports) (argv : list string),
     let out := banners (stdout (snd (run_main ext argv))) in
     out = [] \/
     out = map banner [Version; ReleaseHistory; Author; Readme; Homepage;
                       Downloads; Repo; Cves] \/
     out = map banner [Version; ReleaseHistory; Author; Readme; Homepage;
                       Downloads; Repo; Cves; Apis]).
Proof.
  split.
  { intros ext tm pm pm_name pkg_name ver_str pkg_info ver_info s. cbv zeta.
    destruct (run_stages_banners ext tm pm pm_name pkg_name ver_str
                pkg_info ver_info s) as (r & s' & tail & E & B & Ht & _).
    rewrite E. simpl fst. simpl snd. rewrite B.
    destruct Ht as [-> | ->]; [left | right]; reflexivity. }
  intros ext argv. cbv zeta. rewrite run_main_state. unfold main.
  apply before_stages;
    [apply get_threat_model_quiet | reflexivity | now left | intros tm s1 H1].
  apply before_stages;
    [repeat quiet_step | assumption | now left | intros arg1 s2 H2].
  cbv zeta.
  apply before_stages;
    [repeat quiet_step | assumption | now left | intros pm s3 H3].
  apply before_stages;
    [repeat quiet_step | assumption | now left | intros proxy s4 H4].
  apply before_stages;
    [repeat quiet_step | assumption | now left | intros pm_proxy s5 H5].
  apply before_stages;
    [repeat quiet_step | assumption | now left | intros pkg_name s6 H6].
  apply before_stages;
    [repeat quiet_step | assumption | now left | intros [name ver_str] s7 H7].
  apply before_stages;
    [apply fetch_metadata_quiet | assumption | now left
    | intros [[[pkg_name' pkg_info] ver_info] ver_str'] s8 H8].
  destruct (run_stages_banners ext tm pm_proxy (lower arg1) pkg_name' ver_str'
              pkg_info ver_info s8) as (r & s9 & tail & E & B & Ht & _).
  unfold bind. rewrite E. rewrite H8 in B. simpl in B.
  assert (Hout : banners (stdout s9)
                 = map banner [Version; ReleaseHistory; Author; Readme; Homepage;
                               Downloads; Repo; Cves] \/
                 banners (stdout s9)
                 = map banner [Version; ReleaseHistory; Author; Readme; Homepage;
                               Downloads; Repo; Cves; Apis]).
  { destruct Ht as [-> | ->]; [left | right]; exact B. }
  destruct r as [[]|e]; simpl.
  - pose proof (write_report_quiet ext (lower arg1) pkg_name' ver_str' s9) as Q.
    unfold quiet in Q. rewrite Q. now right.
  - now right.
Qed.

(** C3, as the specification words it, fails: on the sample package the download
    check is announced before the repository check. *)
Lemma stages_claimed_order_counterexample :
  let out := banners (stdout (snd (run_main
               (sample_ext sample_ver_info sample_download sample_perms)
               sample_argv))) in
  out = map banner [Version; ReleaseHistory; Author; Readme; Homepage;
                    Downloads; Repo; Cves; Apis] /\
  out <> map banner [Version; ReleaseHistory; Author; Readme; Homepage;
                     Repo; Downloads; Cves; Apis].
Proof. split; [vm_compute; reflexivity | vm_compute; discriminate]. Qed.

(** ** Stage functions always return *)

(** C8.  Every stage function, on every input, state and outcome of its
    external calls, completes by returning the pair [(risks, report)]: the
    two dictionaries are exactly as the statements of its [try] block left
    them when they finished or raised, whatever the exception (also one that
    [except Exception] does not catch).  When a prefix [m] of a body raises
    in a state [s1], the continuation [k] contributes nothing: the pair
    returned holds the dictionaries of [s1].  And so, in the script, the
    eight metadata stages always run one after the other and hand over to the
    download, whatever happened inside them. *)
Theorem stage_functions_always_return :
  forall ext pm_proxy threat_model,
    (forall f a s,
       let s1 := snd (stage_body ext pm_proxy threat_model f a s) in
       exists s2,
         stage_function ext pm_proxy threat_model f a s
         = (Returned (risks s1, report s1), s2) /\
         risks s2 = risks s1 /\ report s2 = report s1) /\
    (forall A (m : M A) (k : A -> M unit) s e s1,
       m s = (Raise e, s1) ->
       exists s2,
         stage (bind m k) s = (Returned (risks s1, report s1), s2) /\
         risks s2 = risks s1 /\ report s2 = report s1) /\
    (forall pm_name pkg_name ver_str pkg_info ver_info s,
     exists s8,
       run_stages ext threat_model pm_proxy pm_name pkg_name ver_str
         pkg_info ver_info s
       = bind (download_package ext pm_name pkg_name ver_str ver_info)
           (fun _ => bind read_filepath (fun filepath =>
              if truthy filepath then
                call (analyze_apis ext threat_model pm_name pkg_name ver_str filepath)
              else ret tt)) s8 /\
       banners (stdout s8)
       = (banners (stdout s) ++
          map banner [Version; ReleaseHistory; Author; Readme; Homepage;
                      Downloads; Repo; Cves])%list).
Proof.
  intros ext pm tm. split; [|split].
  - intros f a s s1. rewrite stage_function_unfold.
    destruct (stage_returns (stage_body ext pm tm f a) s)
      as (s2 & E & Hr & Hp & _).
    exists s2. auto.
  - intros A m k s e s1 Hm.
    destruct (stage_returns (bind m k) s) as (s2 & E & Hr & Hp & _).
    rewrite (bind_raise m k s e s1 Hm) in *. simpl in *.
    exists s2. auto.
  - intros pm_name pkg_name ver_str pkg_info ver_info s.
    destruct (metadata_stages_run ext tm pm pm_name pkg_name ver_str
                pkg_info ver_info s) as (s8 & E & B & _).
    exists s8. auto.
Qed.

Lemma stage_functions_always_return_witness :
  let ext := sample_ext sample_ver_info sample_download sample_perms in
  let boom := mk_exn OtherException "connection reset" in
  exists s2,
    stage (bind (bind (alert sample_threat_model "few downloads" "only 5 weekly downloads")
                   (fun _ => lift (Raise boom)))
             (fun _ : unit => set_report "homepage" (RUrl PyNone)))
          initial_state
    = (Returned ([("undesirable", ["few downloads: only 5 weekly downloads"])], []), s2) /\
    risks s2 = [("undesirable", ["few downloads: only 5 weekly downloads"])] /\
    report s2 = [].
Proof.
  exact (proj1 (proj2 (stage_functions_always_return
                  (sample_ext sample_ver_info sample_download sample_perms)
                  (sample_pm_proxy sample_ver_info) sample_threat_model))
           unit
           (bind (alert sample_threat_model "few downloads" "only 5 weekly downloads")
              (fun _ => lift (Raise (mk_exn OtherException "connection reset"))))
           (fun _ : unit => set_report "homepage" (RUrl PyNone))
           initial_state (mk_exn OtherException "connection reset")
           (set_risks [("undesirable", ["few downloads: only 5 weekly downloads"])]
              initial_state)
           eq_refl).
Defined.

(** ** A failed download *)

(** When the download fails (no [url] in the version info, or
    [download_file] raises), the name [filepath] is still unbound when the
    script reads it: the run stops there with a [NameError], before any
    report is written. *)
Lemma run_stages_without_archive ext threat_model pm_proxy
    pm_name pkg_name ver_str pkg_info (d : VerInfo) s :
  filepath_var s = None ->
  (Dict.get d "url" = None \/
   exists url e, Dict.get d "url" = Some url /\
                 download_file ext url = Raise e /\ is_Exception e = true) ->
  exists s',
    run_stages ext threat_model pm_proxy pm_name pkg_name ver_str pkg_info (Some d) s
    = (Raise (mk_exn NameError "name 'filepath' is not defined"), s') /\
    files s' = files s.
Proof.
  intros Hnone Hfail.
  destruct (metadata_stages_run ext threat_model pm_proxy
              pm_name pkg_name ver_str pkg_info (Some d) s)
    as (s8 & -> & _ & F & V).
  rewrite Hnone in V.
  unfold download_package, try_except, bind, print, subscript, lift, ret, raise,
    read_filepath.
  destruct Hfail as [Hurl | (url & e & Hurl & Hdl & He)]; rewrite Hurl; simpl.
  - rewrite V. eexists. split; [reflexivity | exact F].
  - rewrite Hdl, He. destruct (is_KeyError e); simpl; rewrite V;
      eexists; (split; [reflexivity | exact F]).
Qed.

(** C2 at a failing input.  The sample package, with [download_file]
    raising an HTTP error: the failure is printed as a [FAILED [...]] line,
    and then the run ends with an uncaught [NameError] on [filepath], exit
    code 1 and no report written. *)
Theorem download_failure_aborts_run :
  let ext := sample_ext sample_ver_info
               (Raise (mk_exn OtherException "HTTP Error 404: Not Found"))
               sample_perms in
  let '(status, s) := run_main ext sample_argv in
  status = Uncaught (mk_exn NameError "name 'filepath' is not defined") /\
  exit_code status = 1 /\
  files s = [] /\
  last (stdout s) "" = "FAILED [HTTP Error 404: Not Found]" /\
  banners (stdout s) = map banner [Version; ReleaseHistory; Author; Readme;
                                   Homepage; Downloads; Repo; Cves].
Proof. vm_compute. repeat split; reflexivity. Qed.

(** ** Default dictionaries *)


(** ** The metadata stages, case by case *)

Ltac run_stage :=
  unfold stage, try_finally, try_except_Exception, exec, return_risks_report,
    try_except, bind, print, set_report, alert, assert, subscript, lift, ret, raise;
  simpl.



(** C6.  [analyze_release_history] on a non-empty release history:
    - fewer than two releases (so exactly one): the alert
      ['few versions or releases'] is recorded with reason
      ['only 1 versions released'], and the whole history becomes the
      [releases] section;
    - at least two releases, and the entry of the analyzed version has
      [days_since_last_release] above 180: the alert
      ['version release after a long gap'] is recorded instead, with reason
      ['version released after <days> days'], and the history becomes the
      [releases] section. *)
Theorem analyze_release_history_cadence :
  forall pm_proxy threat_model pkg_name ver_str pkg_info (h : History) (s : state),
    get_release_history pm_proxy pkg_name pkg_info = Ok (Some h) ->
    h <> [] ->
    ((Dict.len h < 2)%nat ->
     fst (analyze_release_history pm_proxy threat_model pkg_name ver_str pkg_info s)
     = Returned (alert_user "few versions or releases" threat_model
                   "only 1 versions released" (risks s),
                 Dict.set (report s) "releases" (RReleases (Some h)))) /\
    (forall key entry n,
       (2 <= Dict.len h)%nat ->
       ver_str = PyStr key ->
       Dict.get h key = Some entry ->
       Dict.get entry "days_since_last_release" = Some (PyInt n) ->
       180 < n ->
       fst (analyze_release_history pm_proxy threat_model pkg_name ver_str pkg_info s)
       = Returned (alert_user "version release after a long gap" threat_model
                     ("version released after " ++ str_of_Z n ++ " days") (risks s),
                   Dict.set (report s) "releases" (RReleases (Some h)))).
Proof.
  intros pm tm pkg_name ver_str pkg_info h s Hget Hne.
  unfold analyze_release_history, analyze_release_history_body.
  split.
  - intros Hlen. destruct h as [|x [|y h]]; [contradiction | | simpl in Hlen; lia].
    run_stage. rewrite Hget. reflexivity.
  - intros key entry n Hlen -> Hentry Hdays Hgap.
    destruct h as [|x [|y h]]; [contradiction | simpl in Hlen; lia | ].
    run_stage. rewrite Hget. simpl.
    change (Dict.len (x :: y :: h) <? 2)%nat with false. cbv iota.
    simpl in Hentry. simpl. rewrite Hentry. simpl. rewrite Hdays. simpl.
    assert (H0 : (n =? 0) = false) by (apply Z.eqb_neq; lia).
    assert (H1 : (n >? 180) = true) by (apply Z.gtb_lt; lia).
    rewrite H0. simpl. rewrite H1. simpl. reflexivity.
Qed.

Lemma analyze_release_history_cadence_witness :
  fst (analyze_release_history (sample_pm_proxy sample_ver_info) sample_threat_model
         (PyStr "demo") (PyStr "1.0") None initial_state)
  = Returned ([("undesirable", ["few versions or releases: only 1 versions released"])],
              [("releases",
                RReleases (Some [("1.0", [("days_since_last_release", PyNone)])]))]).
Proof.
  refine (proj1
    (analyze_release_history_cadence (sample_pm_proxy sample_ver_info)
       sample_threat_model (PyStr "demo") (PyStr "1.0") None
       [("1.0", [("days_since_last_release", PyNone)])] initial_state
       eq_refl _) _).
  - discriminate.
  - simpl. lia.
Defined.

(** C7.  [analyze_homepage] on a package whose homepage URL is present and
    is parsed with a scheme other than [https] (so for every [http://] URL):
    whatever the site and popularity checks answer or raise, the function
    returns risks in which the alert ['invalid or no homepage'] with reason
    ['insecure webpage'] has been recorded first, followed by at most one
    further alert of the same type. *)
Theorem analyze_homepage_insecure :
  forall ext pm_proxy threat_model pkg_name ver_str pkg_info
         (url : string) (parsed : ParsedUrl) (s : state),
    get_homepage pm_proxy pkg_name ver_str pkg_info = Ok (PyStr url) ->
    url <> "" ->
    parse_url ext (PyStr url) = Ok parsed ->
    scheme parsed <> "https" ->
    let insecure :=
      alert_user "invalid or no homepage" threat_model "insecure webpage" (risks s) in
    exists r rep,
      fst (analyze_homepage ext pm_proxy threat_model pkg_name ver_str pkg_info s)
      = Returned (r, rep) /\
      (r = insecure \/
       exists reason,
         r = alert_user "invalid or no homepage" threat_model reason insecure).
Proof.
  intros ext pm tm pkg_name ver_str pkg_info url parsed s Hurl Hne Hparse Hscheme.
  cbv zeta. unfold analyze_homepage, analyze_homepage_body.
  run_stage. rewrite Hurl. simpl.
  assert (Ht : (url =? "")%string = false) by (now apply String.eqb_neq).
  rewrite Ht. simpl. rewrite Hparse. simpl.
  assert (Hs : (scheme parsed =? "https")%string = false) by (now apply String.eqb_neq).
  rewrite Hs. simpl.
  destruct (check_site_exist ext (PyStr url)) as [[valid_site reason]|e]; simpl.
  - destruct valid_site; simpl.
    + destruct (check_domain_popular ext (PyStr url)) as [[|]|e]; simpl.
      * do 2 eexists. split; [reflexivity|]. right. eexists. reflexivity.
      * do 2 eexists. split; [reflexivity|]. now left.
      * destruct (is_Exception e); simpl;
          do 2 eexists; (split; [reflexivity|]); now left.
    + do 2 eexists. split; [reflexivity|]. right. eexists. reflexivity.
  - destruct (is_Exception e); simpl;
      do 2 eexists; (split; [reflexivity|]); now left.
Qed.

Lemma analyze_homepage_insecure_witness :
  exists r rep,
    fst (analyze_homepage (sample_ext sample_ver_info sample_download sample_perms)
           (sample_pm_proxy sample_ver_info) sample_threat_model
           (PyStr "demo") (PyStr "1.0") None initial_state)
    = Returned (r, rep) /\
    (r = [("undesirable", ["invalid or no homepage: insecure webpage"])] \/
     exists reason,
       r = alert_user "invalid or no homepage" sample_threat_model reason
             [("undesirable", ["invalid or no homepage: insecure webpage"])]).
Proof.
  refine (analyze_homepage_insecure
            (sample_ext sample_ver_info sample_download sample_perms)
            (sample_pm_proxy sample_ver_info) sample_threat_model
            (PyStr "demo") (PyStr "1.0") None "http://example.org"
            (mk_parsed "http") initial_state eq_refl _ eq_refl _);
    discriminate.
Defined.

(** ** The API-usage stage *)

Lemma api_alert_total p : exists alert_type reason, api_alert p = Some (alert_type, reason).
Proof.
  unfold api_alert.
  change (truthy (PyStr "SINK_PROCESS_OPERATION")) with true. cbv iota.
  repeat match goal with
         | |- context [if ?b then _ else _] => destruct b; [eauto|]
         end.
  eauto.
Qed.

Lemma api_step_runs tm p usage reason_var report_data s :
  exists alert_type reason,
    api_alert p = Some (alert_type, reason) /\
    api_step tm (p, usage) (reason_var, report_data) s
    = (Ok (Some reason, add_usage report_data reason usage),
       set_risks (alert_user alert_type tm reason (risks s)) s).
Proof.
  destruct (api_alert_total p) as (a & r & E).
  exists a, r. split; [exact E|].
  unfold api_step. rewrite E. reflexivity.
Qed.

Lemma add_usage_mem_same report_data reason usage :
  Dict.mem (add_usage report_data reason usage) reason = true.
Proof.
  unfold add_usage. destruct (Dict.get report_data reason); apply DictFacts.mem_set_eq.
Qed.

Lemma add_usage_mem_keeps report_data reason usage key :
  Dict.mem report_data key = true ->
  Dict.mem (add_usage report_data reason usage) key = true.
Proof.
  intros H. unfold add_usage.
  destruct (Dict.get report_data reason); now apply DictFacts.mem_set.
Qed.

Lemma extends_in r r' cat msg :
  extends r r' -> In msg (messages r cat) -> In msg (messages r' cat).
Proof.
  intros H Hin. destruct (H cat) as [rest E]. rewrite E.
  apply in_or_app. now left.
Qed.

Lemma alert_user_in tm alert_type reason cat r :
  Dict.get tm alert_type = Some cat ->
  In (alert_type ++ ": " ++ reason) (messages (alert_user alert_type tm reason r) cat).
Proof.
  intros H. unfold alert_user. rewrite H. rewrite append_message_same.
  apply in_or_app. right. now left.
Qed.

(** The loop of [analyze_apis] never raises; it keeps the keys of
    [report_data] and the recorded messages, and an item tagged
    [SINK_NETWORK] leaves its literal reason and message behind. *)
Lemma api_loop tm (items : Perms) :
  forall reason_var report_data s,
  exists reason_var' report_data' s',
    for_each items (api_step tm) (reason_var, report_data) s
    = (Ok (reason_var', report_data'), s') /\
    extends (risks s) (risks s') /\
    report s' = report s /\ stdout s' = stdout s /\
    (forall key, Dict.mem report_data key = true ->
                 Dict.mem report_data' key = true) /\
    (Dict.mem items "SINK_NETWORK" = true ->
     Dict.mem report_data' "sends data over the network %s" = true /\
     forall cat,
       Dict.get tm "communicates with external network" = Some cat ->
       In "communicates with external network: sends data over the network %s"
          (messages (risks s') cat)).
Proof.
  induction items as [|[p usage] items IH]; intros rv rd s.
  - exists rv, rd, s. simpl. split; [reflexivity|].
    split; [apply extends_refl|]. split; [reflexivity|]. split; [reflexivity|].
    split; [auto | discriminate].
  - destruct (api_step_runs tm p usage rv rd s) as (a & r & Ea & Es).
    simpl for_each. rewrite (bind_ok _ _ _ _ _ Es).
    destruct (IH (Some r) (add_usage rd r usage)
                 (set_risks (alert_user a tm r (risks s)) s))
      as (rv' & rd' & s' & E & Hext & Hrep & Hout & Hkeys & Hnet).
    exists rv', rd', s'. split; [exact E|].
    assert (Hext' : extends (risks s) (risks s')).
    { eapply extends_trans; [|exact Hext]. simpl. apply extends_alert_user. }
    split; [exact Hext'|]. split; [exact Hrep|]. split; [exact Hout|].
    split.
    + intros key Hk. apply Hkeys. now apply add_usage_mem_keeps.
    + unfold Dict.mem at 1. simpl.
      destruct (String.eqb_spec p "SINK_NETWORK") as [->|Hp].
      * intros _. vm_compute in Ea. inversion Ea; subst a r. split.
        -- apply Hkeys. apply add_usage_mem_same.
        -- intros cat Hcat. eapply extends_in; [exact Hext|]. simpl.
           apply (alert_user_in tm "communicates with external network"
                    "sends data over the network %s" cat (risks s) Hcat).
      * exact Hnet.
Qed.

(** C10.  When the analysis reaches the classification (a supported
    package manager, a parse that succeeds and yields a usage record
    [perms]) and [perms] has the tag [SINK_NETWORK]: [analyze_apis] returns,
    the [permissions] section has the key
    ['sends data over the network %s'], and the category configured for
    ['communicates with external network'] holds the message
    ['communicates with external network: sends data over the network %s'],
    with the two characters [%s] as they are. *)
Theorem analyze_apis_sink_network_literal :
  forall ext threat_model pm_name pkg_name ver_str (path : string)
         (perms : Perms) (s : state),
    pm_name = "pypi" \/ pm_name = "npm" ->
    (forall language, get_static_proxy_for_language ext language = Ok tt) ->
    (forall language config,
        astgen ext language (PyStr path) (path ++ ".out") config pkg_name ver_str
        = Ok tt) ->
    path_exists ext (path ++ ".out") = true ->
    parse_api_usage ext pm_name (path ++ ".out") = Ok (Some perms) ->
    Dict.mem perms "SINK_NETWORK" = true ->
    exists r rep report_data,
      fst (analyze_apis ext threat_model pm_name pkg_name ver_str (PyStr path) s)
      = Returned (r, rep) /\
      Dict.get rep "permissions" = Some (RPermissions report_data) /\
      Dict.mem report_data "sends data over the network %s" = true /\
      (forall cat,
         Dict.get threat_model "communicates with external network" = Some cat ->
         In "communicates with external network: sends data over the network %s"
            (messages r cat)).
Proof.
  intros ext tm pm_name pkg_name ver_str path perms s
         Hpm Hstatic Hastgen Hexists Hparse Hmem.
  assert (Hperms : truthy_dict (Some perms) = true)
    by (destruct perms; [discriminate | reflexivity]).
  unfold analyze_apis, analyze_apis_body.
  destruct (api_loop tm perms None Dict.empty (add_stdout "[+] Analyzing APIs..." s))
    as (rv' & rd' & s' & E & Hext & Hrep & Hout & Hkeys & Hnet).
  destruct (Hnet Hmem) as [Hkey Hmsg].
  exists (risks s'), (Dict.set (report s') "permissions" (RPermissions rd')), rd'.
  split; [|split; [apply DictFacts.get_set_eq | split; assumption]].
  destruct Hpm as [-> | ->];
    unfold stage, try_finally, try_except_Exception, exec, return_risks_report,
      try_except, bind, print, set_report, assert, lift, ret, raise, py_add_str;
    simpl; rewrite Hstatic, Hastgen, Hexists, Hparse, Hperms;
    match goal with
    | |- context [for_each ?l ?f ?acc ?s0] =>
        replace (for_each l f acc s0) with (Ok (rv', rd'), s')
          by (symmetry; exact E)
    end;
    reflexivity.
Qed.

Lemma analyze_apis_sink_network_literal_witness :
  exists r rep report_data,
    fst (analyze_apis (sample_ext sample_ver_info sample_download sample_perms)
           sample_threat_model "pypi" (PyStr "demo") (PyStr "1.0")
           (PyStr "/tmp/demo-1.0.tar.gz") initial_state)
    = Returned (r, rep) /\
    Dict.get rep "permissions" = Some (RPermissions report_data) /\
    Dict.mem report_data "sends data over the network %s" = true /\
    (forall cat,
       Dict.get sample_threat_model "communicates with external network" = Some cat ->
       In "communicates with external network: sends data over the network %s"
          (messages r cat)).
Proof.
  exact (analyze_apis_sink_network_literal
           (sample_ext sample_ver_info sample_download sample_perms)
           sample_threat_model "pypi" (PyStr "demo") (PyStr "1.0")
           "/tmp/demo-1.0.tar.gz" sample_perms initial_state
           (or_introl eq_refl) (fun _ => eq_refl) (fun _ _ => eq_refl)
           eq_refl eq_refl eq_refl).
Defined.

(** C1 at failing inputs.  The test after [SINK_CODE_GENERATION] is the
    string literal ["SINK_PROCESS_OPERATION"] alone, which is always true:
    the five tags tested after it never reach their own branch and all get
    the pair of the process branch.  On a usage record with
    [SOURCE_OBFUSCATION] and [SOURCE_USER_INPUT], [analyze_apis] records
    ['generates new code at runtime: spawns new processes in background']
    twice and files both payloads under ['spawns new processes in
    background']; the alert types ['accesses obfuscated (hidden) code'] and
    ['reads user input'] do not appear.  The four tags tested first get
    their own pairs, with two distinct reasons for the two network tags. *)
Theorem api_alert_late_tags_misrouted :
  (forall p,
     In p ["SOURCE_OBFUSCATION"; "SOURCE_SETTINGS"; "SINK_UNCLASSIFIED";
           "SOURCE_ACCOUNT"; "SOURCE_USER_INPUT"; "SINK_PROCESS_OPERATION"] ->
     api_alert p = Some ("generates new code at runtime",
                         "spawns new processes in background")) /\
  api_alert "SOURCE_FILE" = Some ("accesses files and dirs", "reads files and dirs") /\
  api_alert "SINK_FILE" = Some ("accesses files and dirs", "writes to files and dirs") /\
  api_alert "SINK_NETWORK"
  = Some ("communicates with external network", "sends data over the network %s") /\
  api_alert "SOURCE_NETWORK"
  = Some ("communicates with external network", "fetches data over the network") /\
  fst (analyze_apis (sample_ext sample_ver_info sample_download late_tag_perms)
         sample_threat_model "pypi" (PyStr "demo") (PyStr "1.0")
         (PyStr "/tmp/demo-1.0.tar.gz") initial_state)
  = Returned
      ([("malicious",
         ["generates new code at runtime: spawns new processes in background";
          "generates new code at runtime: spawns new processes in background"])],
       [("permissions",
         RPermissions
           [("spawns new processes in background", ["base64.b64decode"; "input"])])]).
Proof.
  split.
  - intros p Hp. simpl in Hp.
    repeat (destruct Hp as [<- | Hp]; [reflexivity|]). contradiction.
  - repeat split; reflexivity.
Qed.

Lemma api_alert_late_tags_misrouted_witness :
  api_alert "SOURCE_OBFUSCATION"
  = Some ("generates new code at runtime", "spawns new processes in background").
Proof.
  exact (proj1 api_alert_late_tags_misrouted "SOURCE_OBFUSCATION" (or_introl eq_refl)).
Defined.

(** * Further properties *)

(** ** The shape of the registry *)

Lemma set_absent_twice {V} (d : Dict.t V) k v v' :
  Dict.get d k = None -> Dict.set (Dict.set d k v) k v' = Dict.set d k v'.
Proof.
  induction d as [|[k0 v0] d IH]; simpl; intros H.
  - now rewrite String.eqb_refl.
  - destruct (k0 =? k)%string eqn:E; [discriminate|].
    simpl. rewrite E. now rewrite IH.
Qed.

Lemma append_message_set risks cat msg :
  append_message risks cat msg
  = Dict.set risks cat (messages risks cat ++ [msg])%list.
Proof.
  unfold append_message, messages.
  destruct (Dict.mem risks cat) eqn:Hm.
  - apply DictFacts.mem_true_get in Hm as [l Hl]. now rewrite Hl.
  - apply DictFacts.mem_false_get in Hm. rewrite Hm, DictFacts.get_set_eq.
    now apply set_absent_twice.
Qed.

Lemma keys_set {V} (d : Dict.t V) k v :
  Dict.keys (Dict.set d k v)
  = if Dict.mem d k then Dict.keys d else (Dict.keys d ++ [k])%list.
Proof.
  unfold Dict.mem, Dict.keys. induction d as [|[k0 v0] d IH]; simpl.
  - reflexivity.
  - destruct (k0 =? k)%string eqn:E; simpl; [reflexivity|].
    rewrite IH. now destruct (Dict.get d k).
Qed.

Lemma get_none_not_key {V} (d : Dict.t V) k :
  Dict.get d k = None -> ~ In k (Dict.keys d).
Proof.
  unfold Dict.keys. induction d as [|[k0 v0] d IH]; simpl; intros H; [tauto|].
  destruct (String.eqb_spec k0 k) as [->|Hne]; [discriminate|].
  intros [Heq | Hin]; [contradiction | now apply IH].
Qed.

Lemma values_set {V} (P : V -> Prop) (d : Dict.t V) k v :
  P v -> Forall P (Dict.values d) -> Forall P (Dict.values (Dict.set d k v)).
Proof.
  unfold Dict.values. intros Hv. induction d as [|[k0 v0] d IH]; simpl; intros H.
  - now constructor.
  - inversion H; subst. destruct (k0 =? k)%string; simpl; constructor; auto.
Qed.

Lemma count_messages_set (r : Risks) cat msgs :
  (count_messages (Dict.set r cat msgs) + length (messages r cat)
   = count_messages r + length msgs)%nat.
Proof.
  unfold count_messages, Dict.values, messages.
  induction r as [|[k0 v0] r IH]; simpl.
  - lia.
  - destruct (k0 =? cat)%string; simpl; lia.
Qed.

Lemma well_formed_append risks cat msg :
  well_formed risks -> well_formed (append_message risks cat msg).
Proof.
  intros [Hnd Hne]. rewrite append_message_set. split.
  - rewrite keys_set. destruct (Dict.mem risks cat) eqn:Hm; [exact Hnd|].
    apply DictFacts.mem_false_get, get_none_not_key in Hm.
    apply NoDup_app; [exact Hnd | repeat constructor; simpl; tauto | ].
    intros x Hx [<- | []]. contradiction.
  - apply values_set; [|exact Hne]. now destruct (messages risks cat).
Qed.

Lemma well_formed_alert_user tm alert_type reason risks :
  well_formed risks -> well_formed (alert_user alert_type tm reason risks).
Proof.
  intros H. unfold alert_user.
  destruct (Dict.get tm alert_type); [now apply well_formed_append | exact H].
Qed.

Lemma classified_alert_user tm alert_type reason risks :
  classified tm risks -> classified tm (alert_user alert_type tm reason risks).
Proof.
  intros H. unfold alert_user.
  destruct (Dict.get tm alert_type) as [cat|] eqn:Hcat; [|exact H].
  intros cat' msg Hin.
  destruct (String.eqb_spec cat cat') as [<-|Hne].
  - rewrite append_message_same in Hin. apply in_app_or in Hin as [Hin | [<- | []]].
    + now apply H.
    + eauto.
  - unfold messages in Hin. rewrite append_message_other in Hin by assumption.
    now apply H.
Qed.

(** X1.  Recording an alert whose type the threat model maps to a category
    leaves the categories in their order, a new category coming last, and
    adds exactly one to the number of messages the summary line counts. *)
Theorem alert_user_order_and_count :
  forall (threat_model : ThreatModel) (alert_type reason cat : string) (risks : Risks),
    Dict.get threat_model alert_type = Some cat ->
    let risks' := alert_user alert_type threat_model reason risks in
    Dict.keys risks'
    = (if Dict.mem risks cat then Dict.keys risks else Dict.keys risks ++ [cat])%list /\
    count_messages risks' = S (count_messages risks).
Proof.
  intros tm ty reason cat risks Hcat. cbv zeta. unfold alert_user. rewrite Hcat.
  rewrite append_message_set. split.
  - apply keys_set.
  - pose proof (count_messages_set risks cat
                  (messages risks cat ++ [alert_message ty reason])) as H.
    rewrite length_app in H. simpl in H. lia.
Qed.

Lemma alert_user_order_and_count_witness :
  let risks := [("undesirable", ["old package: 400 days old"])] in
  let risks' := alert_user "reads user input" sample_threat_model "reads user input" risks in
  Dict.keys risks' = ["undesirable"; "malicious"] /\ count_messages risks' = 2%nat.
Proof.
  exact (alert_user_order_and_count sample_threat_model "reads user input"
           "reads user input" "malicious"
           [("undesirable", ["old package: 400 days old"])] eq_refl).
Defined.

(** ** Calls of stage functions, for any relation on states *)

Lemma call_stage_final (body : M unit) s :
  call (stage body) s = (Ok tt, stage_final body s).
Proof.
  unfold call, stage, stage_final, try_finally, try_except_Exception, exec,
    return_risks_report, print.
  destruct (body s) as [[[]|e] s1]; simpl.
  - now destruct s1.
  - destruct (is_Exception e); simpl; now destruct s1.
Qed.

Section CallPreserves.

Variable R : state -> state -> Prop.
Hypothesis R_trans : forall s1 s2 s3, R s1 s2 -> R s2 s3 -> R s1 s3.
Hypothesis R_print : forall line s, R s (add_stdout line s).

Lemma call_preserves (body : M unit) :
  preserves R body -> preserves R (call (stage body)).
Proof.
  intros H s. rewrite call_stage_final. simpl. unfold stage_final.
  specialize (H s). destruct (body s) as [[[]|e] s1]; simpl in *; auto.
  destruct (is_Exception e); [|exact H].
  eapply R_trans; [exact H | apply R_print].
Qed.

End CallPreserves.

Section Keeps.

Variable threat_model : ThreatModel.
Variable P : Risks -> Prop.
Hypothesis P_alert :
  forall alert_type reason r, P r -> P (alert_user alert_type threat_model reason r).

Lemma keeps_refl s : keeps P s s.
Proof. unfold keeps. auto. Qed.

Lemma keeps_trans s1 s2 s3 : keeps P s1 s2 -> keeps P s2 s3 -> keeps P s1 s3.
Proof. unfold keeps. auto. Qed.

Lemma keeps_print line s : keeps P s (add_stdout line s).
Proof. unfold keeps. auto. Qed.

Lemma keeps_same_risks {A} (m : M A) :
  (forall s, risks (snd (m s)) = risks s) -> preserves (keeps P) m.
Proof. intros H s. unfold keeps. now rewrite H. Qed.

Lemma keeps_alert alert_type reason :
  preserves (keeps P) (alert threat_model alert_type reason).
Proof. intros s. unfold keeps. simpl. apply P_alert. Qed.

Lemma keeps_read_filepath : preserves (keeps P) read_filepath.
Proof.
  apply keeps_same_risks. intros s. unfold read_filepath.
  now destruct (filepath_var s).
Qed.

End Keeps.

Ltac keeps_prim P P_alert :=
  first
    [ apply keeps_alert; exact P_alert
    | apply keeps_read_filepath
    | apply keeps_same_risks; intros ?; reflexivity
    | apply (call_preserves _ (keeps_trans P) (keeps_print P))
    | progress unfold analyze_version_body, analyze_release_history_body,
        analyze_author_body, analyze_readme_body, analyze_homepage_body,
        analyze_downloads_body, analyze_repo_body, analyze_cves_body,
        analyze_apis_body, download_package ].

Ltac keeps_step P P_alert :=
  pres_step (keeps_refl P) (keeps_trans P) ltac:(keeps_prim P P_alert).

(** After the two dictionaries are created, the stages of the script keep
    every property of the risks that the empty registry has and that
    [alert_user] keeps. *)
Lemma run_stages_keeps (P : Risks -> Prop) ext threat_model pm_proxy
    pm_name pkg_name ver_str pkg_info ver_info s :
  P Dict.empty ->
  (forall alert_type reason r, P r -> P (alert_user alert_type threat_model reason r)) ->
  P (risks (snd (run_stages ext threat_model pm_proxy pm_name pkg_name ver_str
                   pkg_info ver_info s))).
Proof.
  intros Hempty Halert. unfold run_stages.
  rewrite (bind_ok new_risks_report _ s tt _ eq_refl).
  match goal with
  | |- P (risks (snd (?m ?s0))) =>
      assert (H : preserves (keeps P) m); [| apply (H s0); exact Hempty]
  end.
  unfold analyze_version, analyze_release_history, analyze_author, analyze_readme,
    analyze_homepage, analyze_downloads, analyze_repo, analyze_cves, analyze_apis.
  repeat keeps_step P Halert.
Qed.

(** X2.  Whatever the package and the outcomes of the external calls, the
    risks the stages of the script leave behind list no category twice, hold
    no empty category, and hold under each category only messages
    ["<alert_type>: <reason>"] whose alert type the threat model maps to
    that category. *)
Theorem run_stages_risks_invariant :
  forall ext threat_model pm_proxy pm_name pkg_name ver_str pkg_info ver_info s,
    let found := risks (snd (run_stages ext threat_model pm_proxy pm_name
                               pkg_name ver_str pkg_info ver_info s)) in
    well_formed found /\ classified threat_model found.
Proof.
  intros ext tm pm pm_name pkg_name ver_str pkg_info ver_info s. cbv zeta. split.
  - apply run_stages_keeps.
    + split; [constructor | constructor].
    + intros ty reason r. apply well_formed_alert_user.
  - apply run_stages_keeps.
    + intros cat msg [].
    + intros ty reason r. apply classified_alert_user.
Qed.

(** ** A stage writes its own report section, last *)

Lemma same_report_refl s : same_report s s.
Proof. reflexivity. Qed.

Lemma same_report_trans s1 s2 s3 :
  same_report s1 s2 -> same_report s2 s3 -> same_report s1 s3.
Proof. unfold same_report. congruence. Qed.

Lemma same_report_intro {A} (m : M A) :
  (forall s, report (snd (m s)) = report s) -> preserves same_report m.
Proof. intros H s. apply H. Qed.

Ltac same_report_prim :=
  apply same_report_intro; intros ?; reflexivity.

Ltac same_report_step :=
  pres_step same_report_refl same_report_trans same_report_prim.

Lemma commits_bind {A B} key (m : M A) (k : A -> M B) :
  preserves same_report m -> (forall a, commits key (k a)) -> commits key (bind m k).
Proof.
  intros Hm Hk s. unfold bind. specialize (Hm s). unfold same_report in Hm.
  destruct (m s) as [[a|e] s1]; simpl in Hm; [|exact Hm].
  specialize (Hk a s1). destruct (k a s1) as [[b|e] s2].
  - destruct key; now rewrite <- Hm.
  - congruence.
Qed.

Lemma commits_set_report key v : commits (Some key) (set_report key v).
Proof. intros s. simpl. eauto. Qed.

Lemma commits_none {A} (m : M A) : preserves same_report m -> commits None m.
Proof.
  intros H s. specialize (H s). destruct (m s) as [[a|e] s1]; exact H.
Qed.

Ltac commits_step :=
  first
    [ apply commits_set_report
    | apply commits_bind; [ solve [repeat same_report_step] | intros ? ]
    | match goal with
      | |- commits _ (match ?x with _ => _ end) => destruct x
      end ].

Lemma stage_body_commits ext pm_proxy threat_model f a :
  commits (section f) (stage_body ext pm_proxy threat_model f a).
Proof.
  destruct f; simpl;
    unfold analyze_version_body, analyze_release_history_body, analyze_author_body,
      analyze_readme_body, analyze_homepage_body, analyze_downloads_body,
      analyze_repo_body, analyze_cves_body, analyze_apis_body;
    try (apply commits_none; solve [repeat same_report_step]);
    repeat commits_step.
Qed.

(** X3.  A stage function that fails adds nothing to the report, and one
    that completes has set exactly its own section ([analyze_readme] and
    [analyze_downloads] have none and never touch the report): when the
    statements of the [try] block raise, the report returned is the one
    passed in, and an exception that is an [Exception] is printed as the
    line ["FAILED [<str(e)>]"]; when they complete, the report returned is
    the one passed in with the stage's section set, and no [FAILED] line is
    added. *)
Theorem stage_section_protocol :
  forall ext pm_proxy threat_model (f : stage_name) (a : call_args) (s : state),
    exists r rep s2,
      stage_function ext pm_proxy threat_model f a s = (Returned (r, rep), s2) /\
      match stage_body ext pm_proxy threat_model f a s with
      | (Ok _, s1) =>
          match section f with
          | Some key => exists v, rep = Dict.set (report s) key v
          | None => rep = report s
          end /\ stdout s2 = stdout s1
      | (Raise e, s1) =>
          rep = report s /\
          stdout s2 = if is_Exception e
                      then (stdout s1 ++ [("FAILED [" ++ exn_msg e ++ "]")%string])%list
                      else stdout s1
      end.
Proof.
  intros ext pm tm f a s. rewrite stage_function_unfold.
  pose proof (stage_body_commits ext pm tm f a s) as H.
  unfold stage, try_finally, try_except_Exception, exec, return_risks_report, print.
  destruct (stage_body ext pm tm f a s) as [[[]|e] s1]; simpl.
  - do 3 eexists. split; [reflexivity|]. split; [exact H | reflexivity].
  - destruct (is_Exception e); simpl;
      do 3 eexists; (split; [reflexivity|]); (split; [exact H | reflexivity]).
Qed.

(** ** Edge cases of the metadata stages *)

(** X4.  [analyze_version] without a usable upload date records nothing and
    writes nothing: an absent or empty version info is reported as
    ["FAILED [no data!]"]; a version info without the [uploaded] entry, and
    also a [KeyError] raised by [datetime_delta], as
    ["FAILED [parse error]"]. *)
Theorem analyze_version_without_date :
  forall ext threat_model (ver_info : option VerInfo) (s : state),
    let failed msg :=
      (Returned (risks s, report s),
       add_stdout ("FAILED [" ++ msg ++ "]") (add_stdout "[+] Checking version..." s)) in
    (truthy_dict ver_info = false ->
     analyze_version ext threat_model ver_info s = failed "no data!") /\
    (forall d, ver_info = Some d -> d <> [] -> Dict.get d "uploaded" = None ->
     analyze_version ext threat_model ver_info s = failed "parse error") /\
    (forall d uploaded e,
       ver_info = Some d -> Dict.get d "uploaded" = Some uploaded ->
       datetime_delta ext uploaded = Raise e -> is_KeyError e = true ->
       analyze_version ext threat_model ver_info s = failed "parse error").
Proof.
  intros ext tm ver_info s. cbv zeta.
  unfold analyze_version, analyze_version_body. split; [|split].
  - intros H. run_stage. rewrite H. reflexivity.
  - intros d -> Hne Hup. destruct d as [|x d]; [contradiction|].
    run_stage. simpl in Hup. rewrite Hup. reflexivity.
  - intros d uploaded e -> Hup Hdelta Hkey.
    destruct d as [|x d]; [discriminate|].
    run_stage. simpl in Hup. rewrite Hup. simpl. rewrite Hdelta. simpl.
    rewrite Hkey. reflexivity.
Qed.

Lemma analyze_version_without_date_witness :
  analyze_version (sample_ext sample_ver_info sample_download sample_perms)
    sample_threat_model (Some [("tag", PyStr "1.0")]) initial_state
  = (Returned ([], []),
     add_stdout "FAILED [parse error]"
       (add_stdout "[+] Checking version..." initial_state)).
Proof.
  refine (proj1 (proj2
    (analyze_version_without_date
       (sample_ext sample_ver_info sample_download sample_perms)
       sample_threat_model (Some [("tag", PyStr "1.0")]) initial_state))
    [("tag", PyStr "1.0")] eq_refl _ eq_refl).
  discriminate.
Defined.





(** X7.  [analyze_downloads] by the weekly count the registry returns.  An
    integer below 1000 records the alert ['few downloads'] with reason
    ['only <n> weekly downloads']; 1000 or more records nothing.  A count of
    [None] records nothing and is reported as a [FAILED] line.  The report
    is returned as it was passed in, in every case. *)
Theorem analyze_downloads_cases :
  forall ext threat_model pm_proxy pkg_name (count : pyval) (s : state),
    get_downloads pm_proxy pkg_name = Ok count ->
    (forall n, count = PyInt n ->
       fst (analyze_downloads ext threat_model pm_proxy pkg_name s)
       = Returned
           (if n <? 1000
            then alert_user "few downloads" threat_model
                   ("only " ++ str_of_Z n ++ " weekly downloads") (risks s)
            else risks s,
            report s)) /\
    (count = PyNone ->
     analyze_downloads ext threat_model pm_proxy pkg_name s
     = (Returned (risks s, report s),
        add_stdout
          "FAILED ['<' not supported between instances of 'NoneType' and 'int']"
          (add_stdout "[+] Checking downloads..." s))).
Proof.
  intros ext tm pm pkg_name count s Hget.
  unfold analyze_downloads, analyze_downloads_body. split.
  - intros n ->. run_stage. rewrite Hget. simpl.
    destruct (n <? 1000); simpl;
      destruct (human_format ext (PyInt n)) as [text|e]; simpl;
      try destruct (is_Exception e); reflexivity.
  - intros ->. run_stage. rewrite Hget. reflexivity.
Qed.

Lemma analyze_downloads_cases_witness :
  fst (analyze_downloads (sample_ext sample_ver_info sample_download sample_perms)
         sample_threat_model (sample_pm_proxy sample_ver_info) (PyStr "demo")
         initial_state)
  = Returned ([("undesirable", ["few downloads: only 5 weekly downloads"])], []).
Proof.
  exact (proj1
    (analyze_downloads_cases
       (sample_ext sample_ver_info sample_download sample_perms)
       sample_threat_model (sample_pm_proxy sample_ver_info) (PyStr "demo")
       (PyInt 5) initial_state eq_refl) 5 eq_refl).
Defined.

(** X8.  [analyze_author], once the registry has returned a non-empty
    author record and [check_email_address] has answered
    [(valid, valid_with_dns)] on the [email] entry ([None] when the record
    has none): no alert when both are true; otherwise one alert whose reason
    is ['no email'] when the email is absent or empty, else
    ['invalid author email'] when the address is not valid, else
    ['expired author email domain'].  The record becomes the [author]
    section either way. *)
Theorem analyze_author_reason :
  forall ext pm_proxy threat_model pkg_name ver_str pkg_info ver_info
         (info : Dict.t pyval) (valid valid_with_dns : bool) (s : state),
    get_author pm_proxy pkg_name ver_str pkg_info ver_info = Ok (Some info) ->
    info <> [] ->
    let email := match Dict.get info "email" with Some v => v | None => PyNone end in
    check_email_address ext email = Ok (valid, valid_with_dns) ->
    fst (analyze_author ext pm_proxy threat_model pkg_name ver_str pkg_info ver_info s)
    = Returned
        (if valid && valid_with_dns then risks s
         else alert_user "invalid or no author email (2FA not enabled)" threat_model
                (if negb (truthy email) then "no email"
                 else if negb valid then "invalid author email"
                 else "expired author email domain")
                (risks s),
         Dict.set (report s) "author" (RAuthor (Some info))).
Proof.
  intros ext pm tm pkg_name ver_str pkg_info ver_info info valid dns s Hget Hne.
  cbv zeta. intros Hcheck.
  unfold analyze_author, analyze_author_body.
  destruct info as [|x info]; [contradiction|].
  run_stage. rewrite Hget. simpl.
  destruct (Dict.get (x :: info) "email") as [email|] eqn:He;
    simpl in He; rewrite He; simpl; rewrite Hcheck; simpl;
    destruct valid, dns; reflexivity.
Qed.

Lemma analyze_author_reason_witness :
  fst (analyze_author (sample_ext_email (true, false))
         (sample_pm_proxy sample_ver_info) sample_threat_model
         (PyStr "demo") (PyStr "1.0") None None initial_state)
  = Returned
      ([("vulnerable",
         ["invalid or no author email (2FA not enabled): expired author email domain"])],
       [("author", RAuthor (Some [("email", PyStr "dev@example.org")]))]).
Proof.
  refine (analyze_author_reason (sample_ext_email (true, false))
            (sample_pm_proxy sample_ver_info)
            sample_threat_model (PyStr "demo") (PyStr "1.0") None None
            [("email", PyStr "dev@example.org")] true false initial_state
            eq_refl _ eq_refl).
  discriminate.
Defined.

Lemma map_m_ids_ok (l : list (Dict.t pyval)) ids s :
  Forall2 (fun vul id => Dict.get vul "id" = Some (PyStr id)) l ids ->
  map_m (fun vul => subscript (Some vul) (PyStr "id")) l s = (Ok (map PyStr ids), s).
Proof.
  intros H. induction H as [|vul id l ids Hid _ IH]; cbn [map_m map]; [reflexivity|].
  unfold bind at 1. unfold subscript at 1. rewrite Hid. unfold ret at 1.
  unfold bind at 1. now rewrite IH.
Qed.

Lemma map_m_ids_missing (l : list (Dict.t pyval)) s :
  Exists (fun vul => Dict.get vul "id" = None) l ->
  map_m (fun vul => subscript (Some vul) (PyStr "id")) l s
  = (Raise (key_error (PyStr "id")), s).
Proof.
  intros H. induction H as [vul l Hid | vul l _ IH]; cbn [map_m].
  - unfold bind at 1. unfold subscript at 1. now rewrite Hid.
  - unfold bind at 1. unfold subscript at 1.
    destruct (Dict.get vul "id"); [|reflexivity].
    unfold ret at 1. unfold bind at 1. now rewrite IH.
Qed.

Lemma join_values_strings sep ids : forall i s,
  join_values sep i (map PyStr ids) s = (Ok ids, s).
Proof.
  induction ids as [|id ids IH]; intros i s; cbn [join_values map]; [reflexivity|].
  unfold bind. now rewrite IH.
Qed.

(** X9.  [analyze_cves] by the list the vulnerability lookup returns.
    [None] or an empty list: no alert, and the [vulnerabilities] section is
    the empty list.  A non-empty list whose records all have a string [id]:
    one alert whose reason is ['contains '] followed by the ids joined with
    commas, in the order of the list, and the list becomes the section.  A
    list with a record that has no [id]: the stage fails, with no alert and
    no section. *)
Theorem analyze_cves_cases :
  forall ext threat_model pm_name pkg_name ver_str
         (vuln_list : option (list (Dict.t pyval))) (s : state),
    get_pkgver_vulns ext pm_name pkg_name ver_str = Ok vuln_list ->
    (truthy_list vuln_list = false ->
     fst (analyze_cves ext threat_model pm_name pkg_name ver_str s)
     = Returned (risks s, Dict.set (report s) "vulnerabilities" (RVulns []))) /\
    (forall l ids,
       vuln_list = Some l -> l <> [] ->
       Forall2 (fun vul id => Dict.get vul "id" = Some (PyStr id)) l ids ->
       fst (analyze_cves ext threat_model pm_name pkg_name ver_str s)
       = Returned (alert_user "contains known vulnerablities (CVEs)" threat_model
                     ("contains " ++ join "," ids) (risks s),
                   Dict.set (report s) "vulnerabilities" (RVulns l))) /\
    (forall l,
       vuln_list = Some l ->
       Exists (fun vul => Dict.get vul "id" = None) l ->
       analyze_cves ext threat_model pm_name pkg_name ver_str s
       = (Returned (risks s, report s),
          add_stdout "FAILED ['id']" (add_stdout "[+] Checking for CVEs..." s))).
Proof.
  intros ext tm pm_name pkg_name ver_str vl s Hget.
  unfold analyze_cves, analyze_cves_body. split; [|split].
  - intros H. run_stage. rewrite Hget. simpl. rewrite H. reflexivity.
  - intros l ids -> Hne Hids. destruct l as [|vul l]; [contradiction|].
    unfold stage, try_finally, try_except_Exception, exec, return_risks_report.
    unfold bind at 1. unfold print at 1. cbv iota beta.
    unfold bind at 1. unfold lift at 1. rewrite Hget. cbv iota beta.
    change (truthy_list (Some (vul :: l))) with true. cbv iota.
    unfold bind at 1. unfold bind at 1.
    rewrite (map_m_ids_ok (vul :: l) ids _ Hids).
    unfold bind at 1. rewrite join_values_strings.
    reflexivity.
  - intros l -> Hmiss. destruct l as [|vul l]; [inversion Hmiss|].
    unfold stage, try_finally, try_except_Exception, exec, return_risks_report.
    unfold bind at 1. unfold print at 1. cbv iota beta.
    unfold bind at 1. unfold lift at 1. rewrite Hget. cbv iota beta.
    change (truthy_list (Some (vul :: l))) with true. cbv iota.
    unfold bind at 1. unfold bind at 1.
    rewrite (map_m_ids_missing (vul :: l) _ Hmiss).
    reflexivity.
Qed.

Lemma analyze_cves_cases_witness :
  let l := [[("id", PyStr "GHSA-1")]; [("id", PyStr "CVE-2")]] in
  fst (analyze_cves (sample_ext_vulns (Some l)) sample_threat_model "pypi"
         (PyStr "demo") (PyStr "1.0") initial_state)
  = Returned ([("vulnerable",
                ["contains known vulnerablities (CVEs): contains GHSA-1,CVE-2"])],
              [("vulnerabilities", RVulns l)]).
Proof.
  cbv zeta.
  refine (proj1 (proj2
    (analyze_cves_cases
       (sample_ext_vulns (Some [[("id", PyStr "GHSA-1")]; [("id", PyStr "CVE-2")]]))
       sample_threat_model "pypi" (PyStr "demo") (PyStr "1.0")
       (Some [[("id", PyStr "GHSA-1")]; [("id", PyStr "CVE-2")]]) initial_state
       eq_refl))
    [[("id", PyStr "GHSA-1")]; [("id", PyStr "CVE-2")]] ["GHSA-1"; "CVE-2"]
    eq_refl _ _).
  - discriminate.
  - repeat constructor.
Defined.

Local Arguments startswith_any : simpl never.
Local Arguments strip : simpl never.

(** X10.  [analyze_repo], its decisions.
    - The registry gives a repository URL: the homepage and the download
      URL are not consulted.  The alert ['invalid or no source repo'] with
      reason ['invalid source repo <url>'] is recorded when the URL does
      not start with one of the four hosting prefixes, or when, stripped of
      leading and trailing slashes, it is one of the two placeholder
      projects; otherwise nothing is recorded.
    - The registry gives none: the homepage stands in when it starts with a
      hosting prefix, and is then judged the same way.
    - Neither the registry, nor the homepage, nor the download URL gives a
      hosted URL: the alert has reason ['no source repo found'] and the
      [repo] section is [None].
    In each case the URL retained becomes the [repo] section. *)
Theorem analyze_repo_decisions :
  forall pm_proxy threat_model pkg_name ver_str pkg_info ver_info (s : state),
    let hosted u := startswith_any u popular_hosting_services in
    let placeholder u :=
      existsb (String.eqb (strip "/" u))
        ["https://github.com/pypa/sampleproject";
         "https://github.com/kubernetes/kubernetes"] in
    let judged u :=
      Returned
        (if hosted u && negb (placeholder u) then risks s
         else alert_user "invalid or no source repo" threat_model
                ("invalid source repo " ++ u) (risks s),
         Dict.set (report s) "repo" (RUrl (PyStr u))) in
    let unhosted v := v = PyNone \/ exists u, v = PyStr u /\ hosted u = false in
    (forall u,
       get_repo pm_proxy pkg_name ver_str pkg_info ver_info = Ok (PyStr u) ->
       u <> "" ->
       fst (analyze_repo pm_proxy threat_model pkg_name ver_str pkg_info ver_info s)
       = judged u) /\
    (forall r0 u,
       get_repo pm_proxy pkg_name ver_str pkg_info ver_info = Ok r0 ->
       truthy r0 = false ->
       get_homepage pm_proxy pkg_name ver_str pkg_info = Ok (PyStr u) ->
       hosted u = true ->
       fst (analyze_repo pm_proxy threat_model pkg_name ver_str pkg_info ver_info s)
       = judged u) /\
    (forall r0 homepage download_url,
       get_repo pm_proxy pkg_name ver_str pkg_info ver_info = Ok r0 ->
       truthy r0 = false ->
       get_homepage pm_proxy pkg_name ver_str pkg_info = Ok homepage ->
       unhosted homepage ->
       get_download_url pm_proxy pkg_name ver_str pkg_info = Ok download_url ->
       unhosted download_url ->
       fst (analyze_repo pm_proxy threat_model pkg_name ver_str pkg_info ver_info s)
       = Returned (alert_user "invalid or no source repo" threat_model
                     "no source repo found" (risks s),
                   Dict.set (report s) "repo" (RUrl PyNone))).
Proof.
  intros pm tm pkg_name ver_str pkg_info ver_info s. cbv zeta.
  assert (Hkeep : forall v s0,
            (v = PyNone \/
             exists u, v = PyStr u /\ startswith_any u popular_hosting_services = false) ->
            keep_if_hosted v s0 = (Ok PyNone, s0)).
  { intros v s0 [-> | (u & -> & Hu)]; [reflexivity|].
    unfold keep_if_hosted, py_startswith, bind, ret. simpl.
    destruct (u =? "")%string; simpl; [reflexivity|]. now rewrite Hu. }
  unfold analyze_repo, analyze_repo_body. split; [|split].
  - intros u Hrepo Hne.
    assert (Ht : (u =? "")%string = false) by (now apply String.eqb_neq).
    run_stage. rewrite Hrepo. simpl. repeat (rewrite Ht; simpl).
    destruct (startswith_any u popular_hosting_services); simpl; [|reflexivity].
    destruct (strip "/" u =? "https://github.com/pypa/sampleproject")%string;
      simpl; [reflexivity|].
    destruct (strip "/" u =? "https://github.com/kubernetes/kubernetes")%string;
      reflexivity.
  - intros r0 u Hrepo Hfalsy Hhome Hhosted.
    assert (Ht : (u =? "")%string = false).
    { apply String.eqb_neq. intros ->. discriminate. }
    run_stage. rewrite Hrepo. simpl. rewrite Hfalsy. simpl. rewrite Hhome. simpl.
    unfold keep_if_hosted, py_startswith, bind, ret. simpl.
    repeat (first [rewrite Ht | rewrite Hhosted]; simpl).
    destruct (strip "/" u =? "https://github.com/pypa/sampleproject")%string;
      simpl; [reflexivity|].
    destruct (strip "/" u =? "https://github.com/kubernetes/kubernetes")%string;
      reflexivity.
  - intros r0 homepage download_url Hrepo Hfalsy Hhome Hh Hdl Hd.
    run_stage. rewrite Hrepo. simpl. rewrite Hfalsy. simpl. rewrite Hhome. simpl.
    rewrite (Hkeep homepage _ Hh). simpl. rewrite Hdl. simpl.
    rewrite (Hkeep download_url _ Hd). reflexivity.
Qed.

Lemma analyze_repo_decisions_witness :
  fst (analyze_repo (sample_pm_proxy sample_ver_info) sample_threat_model
         (PyStr "demo") (PyStr "1.0") None None initial_state)
  = Returned ([("undesirable", ["invalid or no source repo: no source repo found"])],
              [("repo", RUrl PyNone)]).
Proof.
  refine (proj2 (proj2
    (analyze_repo_decisions (sample_pm_proxy sample_ver_info) sample_threat_model
       (PyStr "demo") (PyStr "1.0") None None initial_state))
    PyNone (PyStr "http://example.org") PyNone eq_refl eq_refl eq_refl _ eq_refl _).
  - right. exists "http://example.org". split; reflexivity.
  - left. reflexivity.
Defined.

(** X11.  [analyze_homepage] on a homepage URL that is present and parsed
    with the scheme [https]: when the site probe says the page does not
    exist, one alert ['invalid or no homepage'] is recorded with the reason
    the probe gives, and the popularity probe is not consulted; when the
    page exists and its domain is a popular one, the reason is
    ['invalid (popular) webpage']; when it exists and is not popular,
    nothing is recorded.  The URL becomes the [homepage] section in the
    three cases. *)
Theorem analyze_homepage_https :
  forall ext pm_proxy threat_model pkg_name ver_str pkg_info
         (url : string) (parsed : ParsedUrl) (valid_site popular : bool)
         (reason : string) (s : state),
    get_homepage pm_proxy pkg_name ver_str pkg_info = Ok (PyStr url) ->
    url <> "" ->
    parse_url ext (PyStr url) = Ok parsed ->
    scheme parsed = "https" ->
    check_site_exist ext (PyStr url) = Ok (valid_site, reason) ->
    (valid_site = true -> check_domain_popular ext (PyStr url) = Ok popular) ->
    fst (analyze_homepage ext pm_proxy threat_model pkg_name ver_str pkg_info s)
    = Returned
        (if negb valid_site then
           alert_user "invalid or no homepage" threat_model reason (risks s)
         else if popular then
           alert_user "invalid or no homepage" threat_model
             "invalid (popular) webpage" (risks s)
         else risks s,
         Dict.set (report s) "homepage" (RUrl (PyStr url))).
Proof.
  intros ext pm tm pkg_name ver_str pkg_info url parsed valid popular reason s
         Hurl Hne Hparse Hscheme Hsite Hpop.
  assert (Ht : (url =? "")%string = false) by (now apply String.eqb_neq).
  unfold analyze_homepage, analyze_homepage_body.
  run_stage. rewrite Hurl. simpl. rewrite Ht. simpl. rewrite Hparse. simpl.
  rewrite Hscheme. simpl. rewrite Hsite. simpl.
  destruct valid; simpl; [|reflexivity].
  rewrite (Hpop eq_refl). simpl. destruct popular; reflexivity.
Qed.

Lemma analyze_homepage_https_witness :
  fst (analyze_homepage
         (sample_ext_site (Ok (mk_parsed "https")) (Ok (true, "")) (Ok true))
         (sample_pm_proxy sample_ver_info) sample_threat_model
         (PyStr "demo") (PyStr "1.0") None initial_state)
  = Returned ([("undesirable", ["invalid or no homepage: invalid (popular) webpage"])],
              [("homepage", RUrl (PyStr "http://example.org"))]).
Proof.
  refine (analyze_homepage_https
            (sample_ext_site (Ok (mk_parsed "https")) (Ok (true, "")) (Ok true))
            (sample_pm_proxy sample_ver_info) sample_threat_model
            (PyStr "demo") (PyStr "1.0") None "http://example.org"
            (mk_parsed "https") true true "" initial_state
            eq_refl _ eq_refl eq_refl eq_refl (fun _ => eq_refl)).
  discriminate.
Defined.

(** X12.  [analyze_homepage] when the package has no homepage ([None] or
    the empty string): the alert with reason ['no homepage'] is recorded
    first, and the stage goes on to parse and probe the absent URL.  When
    the parser raises, that alert is the only one and the report is left as
    it was; when the parser answers with a scheme other than [https], the
    alert with reason ['insecure webpage'] follows it at once. *)
Theorem analyze_homepage_absent :
  forall ext pm_proxy threat_model pkg_name ver_str pkg_info (url : pyval) (s : state),
    get_homepage pm_proxy pkg_name ver_str pkg_info = Ok url ->
    truthy url = false ->
    let absent :=
      alert_user "invalid or no homepage" threat_model "no homepage" (risks s) in
    (forall e, parse_url ext url = Raise e ->
       fst (analyze_homepage ext pm_proxy threat_model pkg_name ver_str pkg_info s)
       = Returned (absent, report s)) /\
    (forall parsed, parse_url ext url = Ok parsed -> scheme parsed <> "https" ->
       exists r rep,
         fst (analyze_homepage ext pm_proxy threat_model pkg_name ver_str pkg_info s)
         = Returned (r, rep) /\
         extends (alert_user "invalid or no homepage" threat_model
                    "insecure webpage" absent) r).
Proof.
  intros ext pm tm pkg_name ver_str pkg_info url s Hurl Hfalsy. cbv zeta.
  unfold analyze_homepage, analyze_homepage_body. split.
  - intros e Hparse. run_stage. rewrite Hurl. simpl. rewrite Hfalsy. simpl.
    rewrite Hparse. simpl. destruct (is_Exception e); reflexivity.
  - intros parsed Hparse Hscheme.
    assert (Hs : (scheme parsed =? "https")%string = false)
      by (now apply String.eqb_neq).
    run_stage. rewrite Hurl. simpl. rewrite Hfalsy. simpl.
    rewrite Hparse. simpl. rewrite Hs. simpl.
    destruct (check_site_exist ext url) as [[valid reason]|e]; simpl.
    + destruct valid; simpl.
      * destruct (check_domain_popular ext url) as [[|]|e]; simpl;
          try destruct (is_Exception e); simpl;
          do 2 eexists; (split; [reflexivity|]);
          first [apply extends_refl | apply extends_alert_user].
      * do 2 eexists. split; [reflexivity|]. apply extends_alert_user.
    + destruct (is_Exception e); simpl;
        do 2 eexists; (split; [reflexivity|]); apply extends_refl.
Qed.

Lemma analyze_homepage_absent_witness :
  fst (analyze_homepage
         (sample_ext_site (Raise (mk_exn AttributeError
                                    "'NoneType' object has no attribute 'decode'"))
            (Ok (true, "")) (Ok false))
         sample_pm_proxy_no_homepage sample_threat_model
         (PyStr "demo") (PyStr "1.0") None initial_state)
  = Returned ([("undesirable", ["invalid or no homepage: no homepage"])], []).
Proof.
  exact (proj1
    (analyze_homepage_absent
       (sample_ext_site (Raise (mk_exn AttributeError
                                  "'NoneType' object has no attribute 'decode'"))
          (Ok (true, "")) (Ok false))
       sample_pm_proxy_no_homepage sample_threat_model
       (PyStr "demo") (PyStr "1.0") None PyNone initial_state eq_refl eq_refl)
    _ eq_refl).
Defined.

(** ** More on the API-usage stage *)

(** X13.  [analyze_apis] when the analysis cannot be made: a package manager
    other than [pypi] and [npm] is reported with the unformatted text
    ["FAILED [Package manager %s not supported!]"]; an exception of the
    parser, whatever its message, as ["FAILED [parse error]"]; a missing
    output file as ["FAILED [parse error!]"]; an absent or empty usage
    record as ["FAILED [No APIs found!]"].  In each case the risks and the
    report are returned as they were. *)
Theorem analyze_apis_failures :
  forall ext threat_model pm_name pkg_name ver_str (path : string) (s : state),
    let failed msg :=
      (Returned (risks s, report s),
       add_stdout ("FAILED [" ++ msg ++ "]") (add_stdout "[+] Analyzing APIs..." s)) in
    let run := analyze_apis ext threat_model pm_name pkg_name ver_str (PyStr path) s in
    (pm_name <> "pypi" -> pm_name <> "npm" ->
     run = failed "Package manager %s not supported!") /\
    (pm_name = "pypi" \/ pm_name = "npm" ->
     (forall language, get_static_proxy_for_language ext language = Ok tt) ->
     (forall e,
        (forall language config,
           astgen ext language (PyStr path) (path ++ ".out") config pkg_name ver_str
           = Raise e) ->
        is_Exception e = true ->
        run = failed "parse error") /\
     ((forall language config,
         astgen ext language (PyStr path) (path ++ ".out") config pkg_name ver_str
         = Ok tt) ->
      (path_exists ext (path ++ ".out") = false -> run = failed "parse error!") /\
      (forall perms,
         path_exists ext (path ++ ".out") = true ->
         parse_api_usage ext pm_name (path ++ ".out") = Ok perms ->
         truthy_dict perms = false ->
         run = failed "No APIs found!"))).
Proof.
  intros ext tm pm_name pkg_name ver_str path s. cbv zeta.
  unfold analyze_apis, analyze_apis_body. split.
  - intros H1 H2.
    apply String.eqb_neq in H1. apply String.eqb_neq in H2.
    run_stage. rewrite H1, H2. reflexivity.
  - intros Hpm Hstatic. split.
    + intros e Hastgen He.
      destruct Hpm as [-> | ->]; run_stage; unfold py_add_str, ret;
        rewrite Hstatic; simpl; rewrite Hastgen; simpl; rewrite He; reflexivity.
    + intros Hastgen. split.
      * intros Hmissing.
        destruct Hpm as [-> | ->]; run_stage; unfold py_add_str, ret;
          rewrite Hstatic; simpl; rewrite Hastgen; simpl; rewrite Hmissing;
          reflexivity.
      * intros perms Hexists Hparse Hempty.
        destruct Hpm as [-> | ->]; run_stage; unfold py_add_str, ret;
          rewrite Hstatic; simpl; rewrite Hastgen; simpl; rewrite Hexists; simpl;
          rewrite Hparse; simpl; rewrite Hempty; reflexivity.
Qed.

Lemma analyze_apis_failures_witness :
  analyze_apis (sample_ext sample_ver_info sample_download sample_perms)
    sample_threat_model "rubygems" (PyStr "demo") (PyStr "1.0")
    (PyStr "/tmp/demo-1.0.gem") initial_state
  = (Returned ([], []),
     add_stdout "FAILED [Package manager %s not supported!]"
       (add_stdout "[+] Analyzing APIs..." initial_state)).
Proof.
  refine (proj1
    (analyze_apis_failures (sample_ext sample_ver_info sample_download sample_perms)
       sample_threat_model "rubygems" (PyStr "demo") (PyStr "1.0")
       "/tmp/demo-1.0.gem" initial_state) _ _); discriminate.
Defined.

Lemma get_add_usage_same report_data reason usage :
  Dict.get (add_usage report_data reason usage) reason
  = Some (match Dict.get report_data reason with
          | Some old => old ++ usage
          | None => usage
          end)%list.
Proof.
  unfold add_usage. destruct (Dict.get report_data reason); apply DictFacts.get_set_eq.
Qed.

Lemma get_add_usage_other report_data reason usage key :
  reason <> key ->
  Dict.get (add_usage report_data reason usage) key = Dict.get report_data key.
Proof.
  intros H. unfold add_usage.
  destruct (Dict.get report_data reason); now apply DictFacts.get_set_ne.
Qed.

(** The loop of [analyze_apis]: it records one alert per item, in the order
    of the items, and files each payload after those already under its
    reason. *)
Lemma api_loop_report tm (items : Perms) :
  forall reason_var report_data s,
  exists reason_var' report_data' s',
    for_each items (api_step tm) (reason_var, report_data) s
    = (Ok (reason_var', report_data'), s') /\
    risks s' = fold_left (record_item tm) items (risks s) /\
    report s' = report s /\ stdout s' = stdout s /\
    forall reason,
      Dict.get report_data' reason
      = match Dict.get report_data reason, filed_under reason items with
        | None, [] => None
        | None, filed => Some (concat (map snd filed))
        | Some old, filed => Some (old ++ concat (map snd filed))%list
        end.
Proof.
  induction items as [|[p usage] items IH]; intros rv rd s.
  - exists rv, rd, s. simpl. repeat split; auto.
    intros reason. destruct (Dict.get rd reason); [now rewrite app_nil_r | reflexivity].
  - destruct (api_step_runs tm p usage rv rd s) as (a & r & Ea & Es).
    cbn [for_each]. rewrite (bind_ok _ _ _ _ _ Es).
    destruct (IH (Some r) (add_usage rd r usage)
                 (set_risks (alert_user a tm r (risks s)) s))
      as (rv' & rd' & s' & E & Hrisks & Hrep & Hout & Hget).
    exists rv', rd', s'. split; [exact E|].
    split; [|split; [exact Hrep | split; [exact Hout|]]].
    + rewrite Hrisks. cbn [fold_left].
      replace (record_item tm (risks s) (p, usage)) with (alert_user a tm r (risks s))
        by (unfold record_item; cbn [fst]; now rewrite Ea).
      reflexivity.
    + intros reason.
      assert (Hf : filed_under reason ((p, usage) :: items)
                   = if (r =? reason)%string
                     then (p, usage) :: filed_under reason items
                     else filed_under reason items).
      { unfold filed_under. cbn [filter fst].
        replace (reason_of p) with r by (unfold reason_of; now rewrite Ea).
        reflexivity. }
      rewrite Hget, Hf.
      destruct (String.eqb_spec r reason) as [->|Hne].
      * rewrite get_add_usage_same. cbn [map snd concat].
        destruct (Dict.get rd reason) as [old|].
        -- now rewrite app_assoc.
        -- reflexivity.
      * rewrite get_add_usage_other by assumption. reflexivity.
Qed.

(** X14.  When [analyze_apis] reaches the classification of a usage record
    [perms], it returns risks in which one alert per item has been
    recorded, in the order of the items, and a [permissions] section that
    has, for each reason under which some tag of [perms] is filed, the
    payloads of all those tags concatenated in the order of the items, and
    no other key. *)
Theorem analyze_apis_report_by_reason :
  forall ext threat_model pm_name pkg_name ver_str (path : string)
         (perms : Perms) (s : state),
    pm_name = "pypi" \/ pm_name = "npm" ->
    (forall language, get_static_proxy_for_language ext language = Ok tt) ->
    (forall language config,
        astgen ext language (PyStr path) (path ++ ".out") config pkg_name ver_str
        = Ok tt) ->
    path_exists ext (path ++ ".out") = true ->
    parse_api_usage ext pm_name (path ++ ".out") = Ok (Some perms) ->
    perms <> [] ->
    exists report_data,
      fst (analyze_apis ext threat_model pm_name pkg_name ver_str (PyStr path) s)
      = Returned (fold_left (record_item threat_model) perms (risks s),
                  Dict.set (report s) "permissions" (RPermissions report_data)) /\
      forall reason,
        Dict.get report_data reason
        = match filed_under reason perms with
          | [] => None
          | filed => Some (concat (map snd filed))
          end.
Proof.
  intros ext tm pm_name pkg_name ver_str path perms s
         Hpm Hstatic Hastgen Hexists Hparse Hne.
  assert (Hperms : truthy_dict (Some perms) = true)
    by (destruct perms; [contradiction | reflexivity]).
  unfold analyze_apis, analyze_apis_body.
  destruct (api_loop_report tm perms None Dict.empty
              (add_stdout "[+] Analyzing APIs..." s))
    as (rv' & rd' & s' & E & Hrisks & Hrep & Hout & Hget).
  exists rd'. split; [|exact Hget].
  simpl in Hrisks, Hrep. rewrite <- Hrisks, <- Hrep.
  destruct Hpm as [-> | ->];
    unfold stage, try_finally, try_except_Exception, exec, return_risks_report,
      try_except, bind, print, set_report, assert, lift, ret, raise, py_add_str;
    simpl; rewrite Hstatic, Hastgen, Hexists, Hparse, Hperms;
    match goal with
    | |- context [for_each ?l ?f ?acc ?s0] =>
        replace (for_each l f acc s0) with (Ok (rv', rd'), s')
          by (symmetry; exact E)
    end;
    reflexivity.
Qed.

Lemma analyze_apis_report_by_reason_witness :
  exists report_data,
    fst (analyze_apis (sample_ext sample_ver_info sample_download late_tag_perms)
           sample_threat_model "pypi" (PyStr "demo") (PyStr "1.0")
           (PyStr "/tmp/demo-1.0.tar.gz") initial_state)
    = Returned (fold_left (record_item sample_threat_model) late_tag_perms [],
                [("permissions", RPermissions report_data)]) /\
    forall reason,
      Dict.get report_data reason
      = match filed_under reason late_tag_perms with
        | [] => None
        | filed => Some (concat (map snd filed))
        end.
Proof.
  refine (analyze_apis_report_by_reason
            (sample_ext sample_ver_info sample_download late_tag_perms)
            sample_threat_model "pypi" (PyStr "demo") (PyStr "1.0")
            "/tmp/demo-1.0.tar.gz" late_tag_perms initial_state
            (or_introl eq_refl) (fun _ => eq_refl) (fun _ _ => eq_refl)
            eq_refl eq_refl _).
  discriminate.
Defined.

(** X15.  The test [p in "SINK_CODE_GENERATION"] of [analyze_apis] is a
    substring test: every tag that occurs inside that text, the empty tag
    included, is classified as runtime code generation.  And whatever the
    tag, the classification gives one of six pairs: the pairs of the last
    five branches are never given. *)
Theorem api_alert_substring_and_range :
  (forall p, str_in p "SINK_CODE_GENERATION" = true ->
     api_alert p = Some ("generates new code at runtime",
                         "generates new code at runtime")) /\
  (forall p,
     In (api_alert p)
        [Some ("accesses files and dirs", "reads files and dirs");
         Some ("accesses files and dirs", "writes to files and dirs");
         Some ("communicates with external network", "sends data over the network %s");
         Some ("communicates with external network", "fetches data over the network");
         Some ("generates new code at runtime", "generates new code at runtime");
         Some ("generates new code at runtime", "spawns new processes in background")]).
Proof.
  split.
  - intros p H. unfold api_alert.
    destruct (String.eqb_spec p "SOURCE_FILE") as [->|_]; [discriminate|].
    destruct (String.eqb_spec p "SINK_FILE") as [->|_]; [discriminate|].
    destruct (String.eqb_spec p "SINK_NETWORK") as [->|_]; [discriminate|].
    destruct (String.eqb_spec p "SOURCE_NETWORK") as [->|_]; [discriminate|].
    now rewrite H.
  - intros p. unfold api_alert.
    change (truthy (PyStr "SINK_PROCESS_OPERATION")) with true. cbv iota.
    repeat match goal with
           | |- context [if ?b then _ else _] => destruct b; [simpl; tauto|]
           end.
    simpl. tauto.
Qed.

Lemma api_alert_substring_and_range_witness :
  api_alert "CODE" = Some ("generates new code at runtime",
                           "generates new code at runtime").
Proof.
  exact (proj1 api_alert_substring_and_range "CODE" eq_refl).
Defined.

(** ** Loading the threat model *)

Lemma find_last {X} (f : X -> bool) (l : list X) (x : X) :
  find f (l ++ [x]) = match find f l with
                      | Some y => Some y
                      | None => if f x then Some x else None
                      end.
Proof.
  induction l as [|y l IH]; simpl; [reflexivity|].
  destruct (f y); [reflexivity | exact IH].
Qed.

Lemma threat_model_loop (rows : list (list string)) :
  Forall (fun row => (2 <= length row)%nat) rows ->
  forall acc s,
  exists tm,
    for_each rows
      (fun line threat_model =>
         bind (index line 0) (fun typ =>
         bind (index line 1) (fun attr =>
         ret (Dict.set threat_model (strip "010"%char attr) typ))))
      acc s
    = (Ok tm, s) /\
    forall alert_type,
      Dict.get tm alert_type
      = match find (fun row => (strip "010"%char (nth 1 row "") =? alert_type)%string)
                (rev rows) with
        | Some row => Some (nth 0 row "")
        | None => Dict.get acc alert_type
        end.
Proof.
  induction 1 as [|row rows Hrow _ IH]; intros acc s.
  - exists acc. split; reflexivity.
  - destruct row as [|typ [|attr row]]; simpl in Hrow; try lia.
    destruct (IH (Dict.set acc (strip "010"%char attr) typ) s) as (tm & E & Hget).
    exists tm. split.
    + cbn [for_each]. unfold bind at 1. unfold bind at 1. unfold index at 1.
      cbn [nth_error]. unfold ret at 1. unfold bind at 1. unfold index at 1.
      cbn [nth_error]. unfold ret at 1. unfold ret at 1. exact E.
    + intros alert_type. rewrite Hget. cbn [rev]. rewrite find_last.
      destruct (find _ (rev rows)); [reflexivity|]. cbn [nth].
      destruct (String.eqb_spec (strip "010"%char attr) alert_type) as [->|Hne].
      * apply DictFacts.get_set_eq.
      * now apply DictFacts.get_set_ne.
Qed.

Lemma threat_model_short_row (rows : list (list string)) :
  Exists (fun row => (length row < 2)%nat) rows ->
  forall acc s,
    fst (for_each rows
           (fun line threat_model =>
              bind (index line 0) (fun typ =>
              bind (index line 1) (fun attr =>
              ret (Dict.set threat_model (strip "010"%char attr) typ))))
           acc s)
    = Raise (mk_exn IndexError "list index out of range") /\
    snd (for_each rows
           (fun line threat_model =>
              bind (index line 0) (fun typ =>
              bind (index line 1) (fun attr =>
              ret (Dict.set threat_model (strip "010"%char attr) typ))))
           acc s) = s.
Proof.
  induction 1 as [row rows Hrow | row rows _ IH]; intros acc s.
  - destruct row as [|typ [|attr row]]; simpl in Hrow; try lia; split; reflexivity.
  - destruct row as [|typ [|attr row]]; try (split; reflexivity).
    cbn [for_each]. unfold bind at 1. unfold bind at 1. unfold index at 1.
    cbn [nth_error]. unfold ret at 1. unfold bind at 1. unfold index at 1.
    cbn [nth_error]. unfold ret at 1. unfold ret at 1.
    unfold bind at 2. unfold bind at 2. unfold index at 2.
    cbn [nth_error]. unfold ret at 2. unfold bind at 2. unfold index at 2.
    cbn [nth_error]. unfold ret at 2. unfold ret at 2.
    apply IH.
Qed.

(** X16.  [get_threat_model] on the rows the CSV reader returns.  When every
    row has two columns or more, the model maps an alert type to the
    category (first column) of the last row whose second column, stripped of
    newlines at both ends, is that alert type, and has no entry for an alert
    type no row names: a later row overrides an earlier one.  When some row
    has fewer than two columns, loading fails with an [IndexError]. *)
Theorem get_threat_model_last_row_wins :
  forall ext filename (rows : list (list string)) (s : state),
    read_from_csv ext filename = Ok rows ->
    (Forall (fun row => (2 <= length row)%nat) rows ->
     exists threat_model,
       get_threat_model ext filename s = (Ok threat_model, s) /\
       forall alert_type,
         Dict.get threat_model alert_type
         = option_map (fun row => nth 0 row "")
             (find (fun row => (strip "010"%char (nth 1 row "") =? alert_type)%string)
                (rev rows))) /\
    (Exists (fun row => (length row < 2)%nat) rows ->
     get_threat_model ext filename s
     = (Raise (mk_exn IndexError "list index out of range"), s)).
Proof.
  intros ext filename rows s Hread. unfold get_threat_model. split.
  - intros Hrows.
    destruct (threat_model_loop rows Hrows Dict.empty s) as (tm & E & Hget).
    exists tm. split.
    + unfold bind at 1. unfold lift at 1. rewrite Hread. exact E.
    + intros alert_type. rewrite Hget.
      destruct (find _ (rev rows)); reflexivity.
  - intros Hshort.
    destruct (threat_model_short_row rows Hshort Dict.empty s) as [H1 H2].
    unfold bind at 1. unfold lift at 1. rewrite Hread.
    match goal with |- ?x = _ => destruct x as [r s'] end.
    simpl in H1, H2. now subst.
Qed.

Lemma get_threat_model_last_row_wins_witness :
  let rows := [["undesirable"; "few downloads"]; ["malicious"; "few downloads"]] in
  let ext := mk_imports (fun _ => Ok rows) (fun _ => Ok None) (fun _ => Ok PyNone)
               (fun _ => Ok (true, true))
               (fun _ => Ok (mk_parsed "https")) (fun _ => Ok (true, ""))
               (fun _ => Ok false) (fun _ => Ok "") (fun _ _ _ => Ok None)
               (fun _ => Ok tt) (fun _ _ _ _ _ _ => Ok tt) (fun _ => true)
               (fun _ _ => Ok None) (fun _ => Ok (PyNone, PyNone))
               (fun _ => Ok "") (fun _ _ => Ok tt) in
  exists threat_model,
    get_threat_model ext "threats.csv" initial_state = (Ok threat_model, initial_state) /\
    forall alert_type,
      Dict.get threat_model alert_type
      = option_map (fun row => nth 0 row "")
          (find (fun row => (strip "010"%char (nth 1 row "") =? alert_type)%string)
             (rev rows)).
Proof.
  cbv zeta.
  refine (proj1
    (get_threat_model_last_row_wins
       (mk_imports
          (fun _ => Ok [["undesirable"; "few downloads"]; ["malicious"; "few downloads"]])
          (fun _ => Ok None) (fun _ => Ok PyNone)
          (fun _ => Ok (true, true))
          (fun _ => Ok (mk_parsed "https")) (fun _ => Ok (true, ""))
          (fun _ => Ok false) (fun _ => Ok "") (fun _ _ _ => Ok None)
          (fun _ => Ok tt) (fun _ _ _ _ _ _ => Ok tt) (fun _ => true)
          (fun _ _ => Ok None) (fun _ => Ok (PyNone, PyNone))
          (fun _ => Ok "") (fun _ _ => Ok tt))
       "threats.csv"
       [["undesirable"; "few downloads"]; ["malicious"; "few downloads"]]
       initial_state eq_refl) _).
  repeat constructor.
Defined.

(** ** The command line and the setup of the script *)






(** ** The report file *)

(** X19.  The end of the script.  The [risks] section of the report is
    [None] when no alert was recorded and the risks themselves otherwise;
    the report is written once, under the name
    ["<ecosystem>-<package>-<version>.json"].  When the writer raises, the
    exception leaves the script and no file is recorded. *)
Theorem write_report_file :
  forall ext pm_name pkg_name ver_str (s : state),
    let filename :=
      pm_name ++ "-" ++ py_str pkg_name ++ "-" ++ py_str ver_str ++ ".json" in
    let content :=
      Dict.set (report s) "risks"
        (RRisks (match risks s with [] => None | _ => Some (risks s) end)) in
    (write_json_to_file ext filename content = Ok tt ->
     exists s',
       write_report ext pm_name pkg_name ver_str s = (Ok tt, s') /\
       files s' = (files s ++ [(filename, content)])%list /\
       report s' = content /\ risks s' = risks s) /\
    (forall e,
       write_json_to_file ext filename content = Raise e ->
       exists s',
         write_report ext pm_name pkg_name ver_str s = (Raise e, s') /\
         files s' = files s).
Proof.
  intros ext pm_name pkg_name ver_str s. cbv zeta.
  unfold write_report, get_risks, get_report.
  unfold bind, print, set_report, lift, ret. simpl.
  destruct (risks s) as [|x r] eqn:Hr; simpl; split.
  - intros Hw. rewrite Hw. simpl.
    destruct (lower pm_name =? "pypi")%string; simpl;
      eexists; (split; [reflexivity|]); simpl; rewrite ?Hr; auto.
  - intros e Hw. rewrite Hw. eexists. split; reflexivity.
  - intros Hw. rewrite Hw. simpl.
    destruct (lower pm_name =? "pypi")%string; simpl;
      eexists; (split; [reflexivity|]); simpl; rewrite ?Hr; auto.
  - intros e Hw. rewrite Hw. eexists. split; reflexivity.
Qed.

Lemma write_report_file_witness :
  exists s',
    write_report (sample_ext sample_ver_info sample_download sample_perms)
      "npm" (PyStr "demo") (PyStr "1.0") initial_state
    = (Ok tt, s') /\
    files s' = [("npm-demo-1.0.json", [("risks", RRisks None)])] /\
    report s' = [("risks", RRisks None)] /\ risks s' = [].
Proof.
  exact (proj1
    (write_report_file (sample_ext sample_ver_info sample_download sample_perms)
       "npm" (PyStr "demo") (PyStr "1.0") initial_state) eq_refl).
Defined.










(** ** The ecosystem argument *)

Lemma lower_ascii_idempotent a : lower_ascii (lower_ascii a) = lower_ascii a.
Proof. destruct a as [[] [] [] [] [] [] [] []]; reflexivity. Qed.

Lemma lower_idempotent s : lower (lower s) = lower s.
Proof.
  induction s as [|a s IH]; simpl; [reflexivity|].
  now rewrite lower_ascii_idempotent, IH.
Qed.

Lemma bind_ret {A B} (a : A) (k : A -> M B) s : bind (ret a) k s = k a s.
Proof. reflexivity. Qed.

Lemma bind_ext {A B} (m : M A) (k1 k2 : A -> M B) s :
  (forall a s1, k1 a s1 = k2 a s1) -> bind m k1 s = bind m k2 s.
Proof. intros H. unfold bind. destruct (m s) as [[a|e] s1]; auto. Qed.

(** X21.  The ecosystem argument is read without regard to case: a run with
    [argv[1]] is the run with [argv[1]] in lower case, whatever the other
    arguments and the outcomes of the external calls. *)
Theorem ecosystem_case_insensitive :
  forall ext (prog arg1 : string) (rest : list string),
    run_main ext (prog :: arg1 :: rest) = run_main ext (prog :: lower arg1 :: rest).
Proof.
  intros ext prog arg1 rest. unfold run_main.
  replace (main ext (prog :: lower arg1 :: rest) initial_state)
    with (main ext (prog :: arg1 :: rest) initial_state); [reflexivity|].
  unfold main. apply bind_ext. intros tm s1.
  unfold index. cbn [nth_error]. rewrite !bind_ret. cbv zeta.
  now rewrite lower_idempotent.
Qed.

(** ** Stage calls and the archive *)


(** X23.  When the version info has a [url] and [download_file] returns a
    path, the stages of the script complete without an exception and leave
    the name [filepath] bound to that path, also when the line reporting
    the size cannot be formatted; the API stage is announced exactly when
    the path is a non-empty string. *)
Theorem run_stages_with_archive :
  forall ext threat_model pm_proxy pm_name pkg_name ver_str pkg_info
         (d : VerInfo) (url path size : pyval) (s : state),
    Dict.get d "url" = Some url ->
    download_file ext url = Ok (path, size) ->
    (forall e, fmt_kb ext size = Raise e -> is_Exception e = true) ->
    exists s',
      run_stages ext threat_model pm_proxy pm_name pkg_name ver_str pkg_info (Some d) s
      = (Ok tt, s') /\
      filepath_var s' = Some path /\
      files s' = files s /\
      banners (stdout s')
      = (banners (stdout s) ++
         map banner [Version; ReleaseHistory; Author; Readme; Homepage;
                     Downloads; Repo; Cves] ++
         (if truthy path then [banner Apis] else []))%list.
Proof.
  intros ext tm pm pm_name pkg_name ver_str pkg_info d url path size s
         Hurl Hdl Hfmt.
  destruct (metadata_stages_run ext tm pm pm_name pkg_name ver_str pkg_info (Some d) s)
    as (s8 & -> & B & F & _).
  assert (Hdown : exists s9,
            download_package ext pm_name pkg_name ver_str (Some d) s8 = (Ok tt, s9) /\
            filepath_var s9 = Some path /\ files s9 = files s8 /\
            banners (stdout s9) = banners (stdout s8)).
  { unfold download_package, try_except, bind, print, subscript, lift, ret, raise.
    rewrite Hurl, Hdl. simpl.
    destruct (fmt_kb ext size) as [text|e] eqn:Hf; simpl.
    - eexists. split; [reflexivity|]. simpl. repeat split.
      rewrite banners_add_quiet by reflexivity.
      now rewrite banners_add_quiet by reflexivity.
    - rewrite (Hfmt e eq_refl).
      destruct (is_KeyError e); simpl; eexists; (split; [reflexivity|]); simpl;
        repeat split;
        rewrite banners_add_quiet by reflexivity;
        now rewrite banners_add_quiet by reflexivity. }
  destruct Hdown as (s9 & Ed & V9 & F9 & B9).
  rewrite (bind_ok _ _ _ _ _ Ed).
  unfold bind at 1. unfold read_filepath. rewrite V9.
  destruct (truthy path).
  - destruct (call_analyze_apis ext tm pm_name pkg_name ver_str path s9)
      as (s10 & E10 & _ & F10 & V10 & B10).
    exists s10. split; [exact E10|]. split; [congruence|]. split; [congruence|].
    rewrite B10, B9, B. now rewrite <- !app_assoc.
  - exists s9. split; [reflexivity|]. split; [exact V9|]. split; [congruence|].
    rewrite B9, B. now rewrite app_nil_r.
Qed.

Lemma run_stages_with_archive_witness :
  exists s',
    run_stages (sample_ext sample_ver_info sample_download sample_perms)
      sample_threat_model (sample_pm_proxy sample_ver_info) "pypi"
      (PyStr "demo") (PyStr "1.0") None (Some sample_ver_info) initial_state
    = (Ok tt, s') /\
    filepath_var s' = Some (PyStr "/tmp/demo-1.0.tar.gz") /\
    files s' = [] /\
    banners (stdout s')
    = map banner [Version; ReleaseHistory; Author; Readme; Homepage;
                  Downloads; Repo; Cves; Apis].
Proof.
  refine (run_stages_with_archive
            (sample_ext sample_ver_info sample_download sample_perms)
            sample_threat_model (sample_pm_proxy sample_ver_info) "pypi"
            (PyStr "demo") (PyStr "1.0") None sample_ver_info
            (PyStr "https://files.example.org/demo-1.0.tar.gz")
            (PyStr "/tmp/demo-1.0.tar.gz") (PyInt 2048) initial_state
            eq_refl eq_refl _).
  intros e H. discriminate H.
Defined.
